(** * complexity.generate: a shallow embedding of the static site generator

    The development follows [complexity/generate.py].  Python strings are
    modelled as [string] (one [ascii] per character), the functions of
    [os.path] are the POSIX ones ([posixpath]), and the file system is an
    in-memory tree that paths are resolved against. *)

From Stdlib Require Import String Ascii List ZArith Lia Bool.
From stdpp Require Import base option list strings gmap.

Local Open Scope string_scope.
#[local] Set Warnings "-register-all".

(** ** Python string methods *)

Module Str.

(** [sep * n] *)
Fixpoint replicate (n : nat) (c : ascii) : string :=
  match n with
  | O => ""
  | S n' => String c (replicate n' c)
  end.

(** [s[:n]] for [0 <= n] *)
Fixpoint take (n : nat) (s : string) : string :=
  match n, s with
  | S n', String c s' => String c (take n' s')
  | _, _ => ""
  end.

(** [s[n:]] for [0 <= n] *)
Fixpoint drop (n : nat) (s : string) : string :=
  match n, s with
  | S n', String _ s' => drop n' s'
  | _, _ => s
  end.

(** [s.startswith(p)] *)
Definition startswith (s p : string) : bool := String.prefix p s.

(** [s.endswith(c)] for a one-character [c] *)
Fixpoint endswith (s : string) (c : ascii) : bool :=
  match s with
  | "" => false
  | String x "" => Ascii.eqb x c
  | String _ s' => endswith s' c
  end.

(** [s.rfind(c)]: index of the last occurrence of [c], [-1] when absent *)
Fixpoint rfind (s : string) (c : ascii) : Z :=
  match s with
  | "" => (-1)%Z
  | String x s' =>
      let r := rfind s' c in
      if (0 <=? r)%Z then (r + 1)%Z
      else if Ascii.eqb x c then 0%Z else (-1)%Z
  end.

(** [s.split(c)]: the pieces between occurrences of [c]; never empty *)
Fixpoint split (s : string) (c : ascii) : list string :=
  match s with
  | "" => [""]
  | String x s' =>
      if Ascii.eqb x c then "" :: split s' c
      else match split s' c with
           | [] => [String x ""]
           | h :: t => String x h :: t
           end
  end.

(** [c.join(l)] *)
Fixpoint join (c : ascii) (l : list string) : string :=
  match l with
  | [] => ""
  | [x] => x
  | x :: l' => x +:+ String c (join c l')
  end.

(** [s.rstrip(c)] *)
Fixpoint rstrip (s : string) (c : ascii) : string :=
  match s with
  | "" => ""
  | String x s' =>
      match rstrip s' c with
      | "" => if Ascii.eqb x c then "" else String x ""
      | r => String x r
      end
  end.

(** truth value of a string: [bool(s)] *)
Definition truthy (s : string) : bool :=
  match s with "" => false | _ => true end.

End Str.

(** ** [posixpath] *)

Module Path.

Definition sep : ascii := "/"%char.
Definition extsep : ascii := "."%char.
Definition curdir : string := ".".
Definition pardir : string := "..".

(** One round of the loop of [posixpath.join]. *)
Definition join2 (path b : string) : string :=
  if Str.startswith b "/" then b
  else if negb (Str.truthy path) || Str.endswith path sep then path +:+ b
  else path +:+ String sep b.

(** [os.path.join(a, *p)] *)
Definition join (a : string) (p : list string) : string :=
  fold_left join2 p a.

(** [os.path.split(p)]: the slices before and after the last separator,
    before [dirname] strips the head. *)
Definition cut (p : string) : string * string :=
  let i := Z.to_nat (Str.rfind p sep + 1)%Z in
  (Str.take i p, Str.drop i p).

(** [os.path.basename(p)] *)
Definition basename (p : string) : string := snd (cut p).

(** [os.path.dirname(p)] *)
Definition dirname (p : string) : string :=
  let head := fst (cut p) in
  if Str.truthy head
     && negb (String.eqb head (Str.replicate (String.length head) sep))
  then Str.rstrip head sep
  else head.

(** [os.path.isabs(p)] *)
Definition isabs (p : string) : bool := Str.startswith p "/".

(** truth value of a list: [bool(l)] *)
Definition truthy_list {A} (l : list A) : bool :=
  match l with [] => false | _ => true end.

(** The body of the [for comp in comps] loop of [posixpath.normpath]. *)
Definition norm_step (initial_slashes : nat) (new_comps : list string)
    (comp : string) : list string :=
  if String.eqb comp "" || String.eqb comp curdir then new_comps
  else if negb (String.eqb comp pardir)
          || (Nat.eqb initial_slashes 0 && negb (truthy_list new_comps))
          || match last new_comps with
             | Some l => String.eqb l pardir
             | None => false
             end
  then new_comps ++ [comp]
  else removelast new_comps.

(** [os.path.normpath(path)] *)
Definition normpath (path : string) : string :=
  if String.eqb path "" then curdir
  else
    let initial_slashes :=
      if Str.startswith path "/" then
        if Str.startswith path "//" && negb (Str.startswith path "///")
        then 2 else 1
      else 0 in
    let comps := Str.split path sep in
    let new_comps := fold_left (norm_step initial_slashes) comps [] in
    let path' := Str.replicate initial_slashes sep +:+ Str.join sep new_comps in
    if Str.truthy path' then path' else curdir.

(** The [while filenameIndex < dotIndex] loop of [genericpath._splitext]:
    is some character of [p[filenameIndex:dotIndex]] not a dot? *)
Fixpoint has_non_dot (s : string) : bool :=
  match s with
  | "" => false
  | String x s' => if Ascii.eqb x extsep then has_non_dot s' else true
  end.

(** [os.path.splitext(p)] *)
Definition splitext (p : string) : string * string :=
  let sepIndex := Str.rfind p sep in
  let dotIndex := Str.rfind p extsep in
  if (sepIndex <? dotIndex)%Z
     && has_non_dot (Str.take (Z.to_nat (dotIndex - (sepIndex + 1))%Z)
                              (Str.drop (Z.to_nat (sepIndex + 1)%Z) p))
  then (Str.take (Z.to_nat dotIndex) p, Str.drop (Z.to_nat dotIndex) p)
  else (p, "").

(** [os.path.abspath(path)] with the working directory [cwd] *)
Definition abspath (cwd path : string) : string :=
  normpath (if isabs path then path else join2 cwd path).

(** [len(commonprefix([l1, l2]))] *)
Fixpoint common (l1 l2 : list string) : nat :=
  match l1, l2 with
  | x :: l1', y :: l2' => if String.eqb x y then S (common l1' l2') else O
  | _, _ => O
  end.

(** [[x for x in s.split(sep) if x]] *)
Definition parts (s : string) : list string :=
  filter (fun x => Str.truthy x = true) (Str.split s sep).

(** [os.path.relpath(path, start)]; [None] is the [ValueError] raised for
    an empty [path]. *)
Definition relpath (cwd path start : string) : option string :=
  if negb (Str.truthy path) then None
  else
    let start_list := parts (abspath cwd start) in
    let path_list := parts (abspath cwd path) in
    let i := common start_list path_list in
    let rel_list :=
      (List.repeat pardir (length start_list - i) ++ List.skipn i path_list)%list in
    match rel_list with
    | [] => Some curdir
    | a :: p => Some (join a p)
    end.

End Path.

(** ** [get_output_filename]

    The Python function returns [False] for "no output" and the file name
    otherwise; [None] stands for [False]. *)

Definition get_output_filename (template_filepath output_dir : string)
    (force_unexpanded expand : bool) : option string :=
  let template_filepath := Path.normpath template_filepath in
  let basename := Path.basename template_filepath in
  let dirname := Path.dirname template_filepath in
  if Str.startswith basename "base" then None
  else if force_unexpanded || String.eqb basename "index.html" || negb expand
  then Some (Path.join output_dir [template_filepath])
  else
    let stem := hd "" (Str.split basename ".") in
    Some (Path.join output_dir [dirname; stem; "index.html"]).

(** ** [minify_html] *)

Module Re.

(** A compiled pattern: given the text from the current position on, the
    length of the match that starts there, if any. *)
Definition pattern := string -> option nat.

(** Python 3's [\s] on the characters below U+0100. *)
Definition isspace (c : ascii) : bool :=
  let n := nat_of_ascii c in
  ((9 <=? n) && (n <=? 13) || (28 <=? n) && (n <=? 32)
   || (n =? 133) || (n =? 160))%nat.

(** Length of the longest run of whitespace at the start: a greedy [\s*]. *)
Fixpoint spaces (s : string) : nat :=
  match s with
  | "" => 0
  | String c s' => if isspace c then S (spaces s') else 0
  end.

(** The pattern [>\s+<]. *)
Definition gt_spaces_lt : pattern := fun s =>
  match s with
  | "" => None
  | String c r =>
      if Ascii.eqb c ">" then
        let n := spaces r in
        match n, Str.drop n r with
        | S _, String d _ => if Ascii.eqb d "<" then Some (S (S n)) else None
        | _, _ => None
        end
      else None
  end.

(** [re.sub(p, repl, s)] for a pattern that matches no empty string: the
    text is scanned from the left; where the pattern matches, [repl] is
    emitted and the scan resumes behind the match; elsewhere one character
    is copied.  [skip] counts the characters of the current match that are
    still to be passed over. *)
Fixpoint sub_from (p : pattern) (repl : string) (skip : nat) (s : string)
    : string :=
  match s with
  | "" => ""
  | String c s' =>
      match skip with
      | S k => sub_from p repl k s'
      | O =>
          match p s with
          | Some (S k) => repl +:+ sub_from p repl k s'
          | _ => String c (sub_from p repl 0 s')
          end
      end
  end.

Definition sub (p : pattern) (repl s : string) : string :=
  sub_from p repl 0 s.

End Re.

Definition minify_html (html : string) : string :=
  Re.sub Re.gt_spaces_lt "><" html.

(** The wording of the specification, as a second definition: a run of
    whitespace is dropped when it sits between a [>] and a [<], every other
    character is kept.  [after_gt] says that only whitespace has been read
    since the last [>]. *)
Module MinifySpec.

(** Is the text some whitespace followed by [<]? *)
Fixpoint reaches_lt (s : string) : bool :=
  match s with
  | "" => false
  | String c s' => if Re.isspace c then reaches_lt s' else Ascii.eqb c "<"
  end.

Fixpoint strip_between (after_gt : bool) (s : string) : string :=
  match s with
  | "" => ""
  | String c s' =>
      if Re.isspace c then
        if after_gt && reaches_lt s' then strip_between after_gt s'
        else String c (strip_between after_gt s')
      else String c (strip_between (Ascii.eqb c ">") s')
  end.

End MinifySpec.

(** ** Python values, exceptions and observable events *)

Inductive pyobj : Type :=
| PNone
| PBool (b : bool)
| PInt (n : Z)
| PStr (s : string)
| PList (l : list pyobj)
| PDict (d : list (string * pyobj)).

(** [obj is not None] *)
Definition is_not_none (o : pyobj) : bool :=
  match o with PNone => false | _ => true end.

Inductive exn : Type :=
| MissingTemplateDirException (msg : string)
| TemplateError (name : string)   (* jinja2: not found, syntax, undefined *)
| OSError (path : string)         (* open, listdir, makedirs *)
| FileExistsError (path : string) (* shutil.copytree onto an existing path *)
| SameFileError (src dst : string)
| ValueError (what : string).     (* relpath, json, yaml *)

Inductive event : Type :=
| Debug (fmt : string) (args : list pyobj)   (* logging.debug *)
| Print (line : string)                      (* print *)
| Scandir (path : string)                    (* os.walk lists a directory *)
| Render (name : string)                     (* env.get_template + render *)
| Makedirs (path : string)
| WriteText (path text : string)
| CopyTree (src dst : string)
| CopyFile (src dst : string).

(** ** The file system *)

Inductive node : Type :=
| File (data : string)
| Dir (entries : list (string * node))
| Special.   (* neither a directory nor a regular file: a socket, say *)

Module FS.

Fixpoint assoc (k : string) (l : list (string * node)) : option node :=
  match l with
  | [] => None
  | (k', v) :: l' => if String.eqb k k' then Some v else assoc k l'
  end.

Fixpoint set_entry (k : string) (v : node) (l : list (string * node))
    : list (string * node) :=
  match l with
  | [] => [(k, v)]
  | (k', v') :: l' =>
      if String.eqb k k' then (k, v) :: l' else (k', v') :: set_entry k v l'
  end.

(** The node at a list of names below [n]. *)
Fixpoint get (n : node) (names : list string) : option node :=
  match names with
  | [] => Some n
  | x :: rest =>
      match n with
      | Dir es => match assoc x es with
                  | Some c => get c rest
                  | None => None
                  end
      | _ => None
      end
  end.

(** Replace or create the node at a list of names; the parent has to be a
    directory. *)
Fixpoint put (n : node) (names : list string) (new : node) : option node :=
  match names with
  | [] => Some new
  | x :: rest =>
      match n with
      | Dir es =>
          match rest with
          | [] => Some (Dir (set_entry x new es))
          | _ => match assoc x es with
                 | Some c => match put c rest new with
                             | Some c' => Some (Dir (set_entry x c' es))
                             | None => None
                             end
                 | None => None
                 end
          end
      | _ => None
      end
  end.

(** Path resolution: follow the components of a path from the directory
    [stack], the way the kernel does ([""] and ["."] stay, [".."] goes up,
    a name goes down and has to exist). *)
Fixpoint canon (root : node) (stack comps : list string)
    : option (list string) :=
  match comps with
  | [] => Some stack
  | c :: rest =>
      match get root stack with
      | Some (Dir es) =>
          if String.eqb c "" || String.eqb c "." then canon root stack rest
          else if String.eqb c ".." then canon root (removelast stack) rest
          else match assoc c es with
               | Some _ => canon root (stack ++ [c]) rest
               | None => None
               end
      | _ => None
      end
  end.

(** [mkdir -p]: as [canon], creating the directories that are missing. *)
Fixpoint mkdirs (root : node) (stack comps : list string) : option node :=
  match comps with
  | [] => Some root
  | c :: rest =>
      match get root stack with
      | Some (Dir es) =>
          if String.eqb c "" || String.eqb c "." then mkdirs root stack rest
          else if String.eqb c ".." then mkdirs root (removelast stack) rest
          else match assoc c es with
               | Some _ => mkdirs root (stack ++ [c]) rest
               | None =>
                   match put root (stack ++ [c]) (Dir []) with
                   | Some root' => mkdirs root' (stack ++ [c]) rest
                   | None => None
                   end
               end
      | _ => None
      end
  end.

Definition dirnames (es : list (string * node)) : list string :=
  flat_map (fun e => match snd e with Dir _ => [fst e] | _ => [] end) es.

Definition nondirnames (es : list (string * node)) : list string :=
  flat_map (fun e => match snd e with Dir _ => [] | _ => [fst e] end) es.

(** [os.walk(top)] (top-down, links not followed, errors ignored) over the
    tree [n] found at [top]: one triple [(root, dirs, files)] per
    directory. *)
Fixpoint walk (top : string) (n : node)
    : list (string * list string * list string) :=
  match n with
  | Dir es =>
      (top, dirnames es, nondirnames es)
      :: (fix below (l : list (string * node)) :=
            match l with
            | [] => []
            | (name, c) :: l' =>
                (match c with
                 | Dir _ => walk (Path.join top [name]) c
                 | _ => []
                 end ++ below l')%list
            end) es
  | _ => []
  end.

End FS.

(** ** The world outside the program

    What the libraries the program calls decide: [binaryornot]'s verdict on
    the first bytes of a file, Jinja2's rendering of a named template found
    through a search path (it reads files by path, hence the reader it is
    given), and the JSON and YAML parsers. *)

Record world : Type := {
  is_binary_string : string -> bool;
  jinja_render :
    (string -> option string) -> list string -> string ->
    gmap string pyobj -> option string;
  json_loads : string -> option pyobj;
  yaml_safe_load : string -> option pyobj
}.

(** The state a run threads: the file system, the working directory and the
    effects performed so far, oldest first. *)
Record state : Type := {
  root : node;
  cwd : string;
  trace : list event
}.

Inductive result (A : Type) : Type :=
| Return (a : A)
| Raise (e : exn).

Arguments Return {A} a.
Arguments Raise {A} e.

Definition M (A : Type) : Type := state -> result A * state.

Definition ret {A} (a : A) : M A := fun st => (Return a, st).

Definition raise {A} (e : exn) : M A := fun st => (Raise e, st).

Definition bind {A B} (m : M A) (k : A -> M B) : M B :=
  fun st =>
    match m st with
    | (Return a, st') => k a st'
    | (Raise e, st') => (Raise e, st')
    end.

Notation "x <- m ;; k" := (bind m (fun x => k))
  (at level 100, m at next level, right associativity).
Notation "m ;; k" := (bind m (fun _ => k))
  (at level 100, right associativity).

Definition emit (e : event) : M unit :=
  fun st =>
    (Return tt,
     {| root := root st; cwd := cwd st; trace := trace st ++ [e] |}).

Definition when (b : bool) (m : M unit) : M unit :=
  if b then m else ret tt.

(** [for x in l: body(x)] *)
Fixpoint for_each {A} (l : list A) (body : A -> M unit) : M unit :=
  match l with
  | [] => ret tt
  | x :: l' => body x ;; for_each l' body
  end.

(** ** [os], [shutil] and the helpers of [complexity.utils] *)

Module OS.

Definition absolute (st : state) (path : string) : string :=
  if Path.isabs path then path else Path.join (cwd st) [path].

Definition components (st : state) (path : string) : list string :=
  Str.split (absolute st path) Path.sep.

(** The names from the root down to what [path] denotes; the empty path
    denotes nothing. *)
Definition locate (st : state) (path : string) : option (list string) :=
  if Str.truthy path then FS.canon (root st) [] (components st path)
  else None.

Definition lookup (st : state) (path : string) : option node :=
  match locate st path with
  | Some names => FS.get (root st) names
  | None => None
  end.

Definition read (st : state) (path : string) : option string :=
  match lookup st path with
  | Some (File d) => Some d
  | _ => None
  end.

(** [os.path.exists] *)
Definition path_exists (path : string) : M bool :=
  fun st =>
    (Return (match lookup st path with Some _ => true | None => false end),
     st).

(** [os.path.isdir] *)
Definition isdir (path : string) : M bool :=
  fun st =>
    (Return (match lookup st path with Some (Dir _) => true | _ => false end),
     st).

(** [os.path.isfile] *)
Definition isfile (path : string) : M bool :=
  fun st =>
    (Return (match lookup st path with Some (File _) => true | _ => false end),
     st).

(** [os.listdir] *)
Definition listdir (path : string) : M (list string) :=
  fun st =>
    match lookup st path with
    | Some (Dir es) => (Return (map fst es), st)
    | _ => (Raise (OSError path), st)
    end.

(** [os.path.relpath] *)
Definition relpath (path start : string) : M string :=
  fun st =>
    match Path.relpath (cwd st) path start with
    | Some r => (Return r, st)
    | None => (Raise (ValueError "no path specified"), st)
    end.

(** [os.walk(top)], as the list of the triples it yields over the tree
    that is at [top] when the walk starts.  The output of a run is written
    outside the tree it walks. *)
Definition walk (top : string) : M (list (string * list string * list string)) :=
  fun st =>
    (Return (match lookup st top with
             | Some n => FS.walk top n
             | None => []
             end), st).

(** [open(path).read()] *)
Definition read_text (path : string) : M string :=
  fun st =>
    match read st path with
    | Some d => (Return d, st)
    | None => (Raise (OSError path), st)
    end.

(** [open(path, 'w').write(data)]: the directory of [path] has to exist,
    and [path] is a regular file or nothing yet.  [ev] is what the trace
    records. *)
Definition store (path data : string) (ev : event) : M unit :=
  fun st =>
    let comps := components st path in
    match last comps with
    | Some name =>
        if negb (Str.truthy path) || String.eqb name ""
           || String.eqb name "." || String.eqb name ".."
        then (Raise (OSError path), st)
        else
          match FS.canon (root st) [] (removelast comps) with
          | Some parent =>
              match FS.get (root st) (parent ++ [name]) with
              | Some (Dir _) | Some Special => (Raise (OSError path), st)
              | _ =>
                  match FS.put (root st) (parent ++ [name]) (File data) with
                  | Some r =>
                      (Return tt,
                       {| root := r; cwd := cwd st;
                          trace := trace st ++ [ev] |})
                  | None => (Raise (OSError path), st)
                  end
              end
          | None => (Raise (OSError path), st)
          end
    | None => (Raise (OSError path), st)
    end.

(** Modelled from the spec: [complexity.utils.unicode_open(path, 'w')]
    followed by [fh.write(text)] is not under src/; the text is written as
    UTF-8 to the path, replacing a file that is there. *)
Definition write_text (path text : string) : M unit :=
  store path text (WriteText path text).

(** Modelled from the spec: [complexity.utils.make_sure_path_exists] is not
    under src/; it makes sure all the directories of [path] exist, creates
    those that are missing, and does nothing (without raising) when it
    cannot. *)
Definition make_sure_path_exists (path : string) : M unit :=
  fun st =>
    let r := match FS.mkdirs (root st) [] (components st path) with
             | Some r => r
             | None => root st
             end in
    (Return tt,
     {| root := r; cwd := cwd st; trace := trace st ++ [Makedirs path] |}).

(** [shutil.copytree(src, dst)]: [os.makedirs(dst)] fails when [dst] is
    there already; then the tree is copied below it. *)
Definition copytree (src dst : string) : M unit :=
  fun st =>
    match lookup st src with
    | Some (Dir es) =>
        match lookup st dst with
        | Some _ => (Raise (FileExistsError dst), st)
        | None =>
            match FS.mkdirs (root st) [] (components st dst) with
            | Some r1 =>
                match FS.canon r1 [] (components st dst) with
                | Some names =>
                    match FS.put r1 names (Dir es) with
                    | Some r2 =>
                        (Return tt,
                         {| root := r2; cwd := cwd st;
                            trace := trace st ++ [CopyTree src dst] |})
                    | None => (Raise (OSError dst), st)
                    end
                | None => (Raise (OSError dst), st)
                end
            | None => (Raise (OSError dst), st)
            end
        end
    | _ => (Raise (OSError src), st)
    end.

(** [shutil.copyfile(src, dst)] *)
Definition copyfile (src dst : string) : M unit :=
  fun st =>
    match locate st src, locate st dst with
    | Some a, Some b =>
        if bool_decide (a = b) then (Raise (SameFileError src dst), st)
        else (d <- read_text src ;; store dst d (CopyFile src dst)) st
    | _, _ => (d <- read_text src ;; store dst d (CopyFile src dst)) st
    end.

(** [binaryornot.check.is_binary(path)]: the verdict on the first 1024
    bytes of the file. *)
Definition is_binary (w : world) (path : string) : M bool :=
  d <- read_text path ;;
  ret (is_binary_string w (Str.take 1024 d)).

(** [env.get_template(name).render] on the context, for the environment whose
    loader searches [searchpath]. *)
Definition render (w : world) (searchpath : list string) (name : string)
    (context : gmap string pyobj) : M string :=
  fun st =>
    match jinja_render w (read st) searchpath name context with
    | Some html =>
        (Return html,
         {| root := root st; cwd := cwd st;
            trace := trace st ++ [Render name] |})
    | None => (Raise (TemplateError name), st)
    end.

Definition debug (fmt : string) (args : list pyobj) : M unit :=
  emit (Debug fmt args).

Definition print (line : string) : M unit := emit (Print line).

End OS.

(** ** [complexity.generate] *)

(** [s.replace(a, b)] for one-character [a] and [b] *)
Fixpoint replace_char (a b : ascii) (s : string) : string :=
  match s with
  | "" => ""
  | String c s' => String (if Ascii.eqb c a then b else c) (replace_char a b s')
  end.

Definition generate_html_file (w : world) (template_filepath output_dir : string)
    (env : list string) (context : gmap string pyobj)
    (force_unexpanded minify expand : bool) : M pyobj :=
  (* Ignore templates starting with "base". *)
  if Str.startswith template_filepath "base" then ret (PBool false)
  else
    let infile_fwd_slashes := replace_char Path.sep "/" template_filepath in
    rendered_html <- OS.render w env infile_fwd_slashes context ;;
    let rendered_html :=
      if minify then minify_html rendered_html else rendered_html in
    match get_output_filename template_filepath output_dir
            force_unexpanded expand with
    | Some output_filename =>
        if Str.truthy output_filename then
          OS.make_sure_path_exists (Path.dirname output_filename) ;;
          OS.write_text output_filename rendered_html ;;
          ret (PBool true)
        else ret PNone
    | None => ret PNone
    end.

Definition _ignore (w : world) (path : string) : M bool :=
  let fn := Path.basename path in
  let ext := snd (Path.splitext path) in
  b <- OS.is_binary w path ;;
  if b then ret true
  else if String.eqb fn "complexity.yml" then ret true
  else if String.eqb ext ".j2" || String.eqb ext ".yml" then ret true
  else ret false.

Definition missing_templates_msg : string :=
  "Your project is missing a templates/ directory containing your             HTML templates.".

(** [False] prints as [False]. *)
Definition show_outfile (outfile : option string) : string :=
  match outfile with Some o => o | None => "False" end.

(** The body of the inner loop of [generate_html], for the file [f] of the
    directory [root]. *)
Definition generate_html_step (w : world) (templates_dir output_dir : string)
    (env : list string) (context : gmap string pyobj)
    (unexpanded_templates : list string) (expand quiet : bool)
    (root f : string) : M unit :=
  template_filepath <- OS.relpath (Path.join root [f]) templates_dir ;;
  let force_unexpanded :=
    existsb (String.eqb template_filepath) unexpanded_templates in
  OS.debug "Is {0} in {1}? {2}"
    [PStr template_filepath; PList (map PStr unexpanded_templates);
     PBool force_unexpanded] ;;
  ig <- _ignore w (Path.join templates_dir [template_filepath]) ;;
  if ig then
    when (negb quiet)
      (OS.print ("Ignore: " +:+ template_filepath +:+ ". Skipping."))
  else
    let outfile := get_output_filename template_filepath output_dir
                     force_unexpanded expand in
    when (negb quiet)
      (OS.print ("Copying " +:+ template_filepath +:+ " to "
                 +:+ show_outfile outfile)) ;;
    (* the sixth positional parameter of generate_html_file is [minify];
       [expand] keeps its default *)
    generate_html_file w template_filepath output_dir env context
      force_unexpanded expand true ;;
    ret tt.

Definition generate_html (w : world) (templates_dir : string)
    (macro_dirs : list string) (output_dir : string)
    (context : option (gmap string pyobj))
    (unexpanded_templates : list string) (expand quiet : bool) : M pyobj :=
  OS.debug "Templates dir is {0}" [PStr templates_dir] ;;
  ex <- OS.path_exists templates_dir ;;
  if negb ex then raise (MissingTemplateDirException missing_templates_msg)
  else
    let context := default ∅ context in
    let _dirs := templates_dir :: macro_dirs in
    let env := _dirs in
    (* Create the output dir if it doesn't already exist *)
    OS.make_sure_path_exists output_dir ;;
    triples <- OS.walk templates_dir ;;
    for_each triples (fun '(root, dirs, files) =>
      emit (Scandir root) ;;
      for_each files
        (generate_html_step w templates_dir output_dir env context
           unexpanded_templates expand quiet root)) ;;
    ret PNone.

(** The body of the loop of [generate_context]: the context after the entry
    [fn]. *)
Definition generate_context_step (w : world) (context_dir : string)
    (context : gmap string pyobj) (fn : string) : M (gmap string pyobj) :=
  let path := Path.join context_dir [fn] in
  let '(name, ext) := Path.splitext fn in
  obj <-
    (if String.eqb ext ".json" then
       text <- OS.read_text path ;;
       match json_loads w text with
       | Some o => ret o
       | None => raise (ValueError path)
       end
     else if String.eqb ext ".yml" || String.eqb ext ".yaml" then
       text <- OS.read_text path ;;
       match yaml_safe_load w text with
       | Some o => ret o
       | None => raise (ValueError path)
       end
     else ret PNone) ;;
  if is_not_none obj then
    OS.print ("Parsed " +:+ fn +:+ " to context as " +:+ name) ;;
    ret (<[name := obj]> context)
  else ret context.

(** [for fn in all_files], threading the dictionary. *)
Fixpoint generate_context_loop (w : world) (context_dir : string)
    (all_files : list string) (context : gmap string pyobj)
    : M (gmap string pyobj) :=
  match all_files with
  | [] => ret context
  | fn :: rest =>
      context' <- generate_context_step w context_dir context fn ;;
      generate_context_loop w context_dir rest context'
  end.

Definition generate_context (w : world) (context_dir : string)
    : M (gmap string pyobj) :=
  all_files <- OS.listdir context_dir ;;
  generate_context_loop w context_dir all_files ∅.

(** The body of the loop of [copy_assets], for the entry [item]. *)
Definition copy_assets_step (assets_dir output_dir : string) (quiet : bool)
    (item : string) : M unit :=
  let item_path := Path.join assets_dir [item] in
  (* Only copy allowed dirs *)
  d <- OS.isdir item_path ;;
  when (d && negb (String.eqb item "scss") && negb (String.eqb item "less"))
    (let new_dir := Path.join output_dir [item] in
     when (negb quiet)
       (OS.print ("Copying directory " +:+ item +:+ " to " +:+ new_dir)) ;;
     OS.copytree item_path new_dir) ;;
  (* Copy over files in the root of assets_dir *)
  f <- OS.isfile item_path ;;
  when f
    (let new_file := Path.join output_dir [item] in
     when (negb quiet)
       (OS.print ("Copying file " +:+ item +:+ " to " +:+ new_file)) ;;
     OS.copyfile item_path new_file).

Definition copy_assets (assets_dir output_dir : string) (quiet : bool)
    : M unit :=
  assets <- OS.listdir assets_dir ;;
  for_each assets (copy_assets_step assets_dir output_dir quiet).

(** ** A concrete project to run the program on *)

Module Sample.

Fixpoint has_nul (s : string) : bool :=
  match s with
  | "" => false
  | String c s' => Ascii.eqb c "000" || has_nul s'
  end.

(** A template without tags renders to its own text; it is the first file
    of that name on the search path. *)
Fixpoint first_source (read : string -> option string)
    (searchpath : list string) (name : string) : option string :=
  match searchpath with
  | [] => None
  | d :: rest =>
      match read (Path.join d [name]) with
      | Some text => Some text
      | None => first_source read rest name
      end
  end.

Definition plain : world := {|
  is_binary_string := has_nul;
  jinja_render := fun read searchpath name _ => first_source read searchpath name;
  json_loads := fun text =>
    if String.eqb text "null" then Some PNone
    else if String.eqb text "[1, 2]" then Some (PList [PInt 1; PInt 2])
    else None;
  yaml_safe_load := fun text =>
    if String.eqb text "" then Some PNone
    else if String.eqb text "[1, 2, 3, 4]"
    then Some (PList [PInt 1; PInt 2; PInt 3; PInt 4])
    else if String.eqb text "7" then Some (PInt 7)
    else None
|}.

Definition context_entries : list (string * node) :=
  [("numbers.yml", File "[1, 2, 3, 4]");
   ("empty.json", File "null");
   ("notes.txt", File "hello");
   ("sub", Dir [("deep.json", File "[1, 2]")])].

Definition project : node :=
  Dir [("templates",
        Dir [("about.html", File "<p>About</p>");
             ("index.html", File "<p> Home </p>  <hr>");
             ("base.html", File "<html></html>");
             ("art", Dir [("page.html", File "<b>Art</b>")])]);
       ("notadir", File "plain");
       ("context", Dir context_entries);
       ("assets",
        Dir [("css", Dir [("site.css", File "p {}")]);
             ("scss", Dir [("site.scss", File "p {}")]);
             ("robots.txt", File "User-agent: *");
             ("sock", Special)]);
       ("www",
        Dir [("css", Dir []);
             ("robots.txt", File "old")])].

Definition start : state :=
  {| root := Dir [("home", Dir [("u", project)])];
     cwd := "/home/u";
     trace := [] |}.

(** The page of the specification's example; the character 010 is the line
    feed. *)
Definition page : string :=
  "<a>  " +:+ String "010" " <b>text  more</b>  </a>".

End Sample.

(** ** Notions the statements are written with *)

Module Spec.

(** The portion of [s] before its first [c]. *)
Fixpoint before (c : ascii) (s : string) : string :=
  match s with
  | "" => ""
  | String x s' => if Ascii.eqb x c then "" else String x (before c s')
  end.

(** Does [c] occur in [s]? *)
Fixpoint occurs (c : ascii) (s : string) : bool :=
  match s with
  | "" => false
  | String x s' => Ascii.eqb x c || occurs c s'
  end.

(** The characters of [s] that are not whitespace. *)
Fixpoint solid (s : string) : string :=
  match s with
  | "" => ""
  | String x s' => if Re.isspace x then solid s' else String x (solid s')
  end.

(** A path component: not empty, no separator in it. *)
Definition component (c : string) : Prop :=
  c <> "" /\ occurs Path.sep c = false.

(** A normalized path: at most two leading separators, then components
    with one separator between them. *)
Definition normal (p : string) : Prop :=
  exists (k : nat) (comps : list string),
    k <= 2 /\ Forall component comps /\ (k = 0 -> comps <> []) /\
    p = Str.replicate k Path.sep +:+ Str.join Path.sep comps.

(** What [Path.join2] puts between its arguments. *)
Definition glue (a : string) : string :=
  if negb (Str.truthy a) || Str.endswith a Path.sep then "" else "/".

Definition is_write (e : event) : bool :=
  match e with WriteText _ _ => true | _ => false end.

(** The number of files a trace records as written. *)
Definition files_written (t : list event) : nat :=
  length (List.filter is_write t).

(** The paths a trace records as written, oldest first. *)
Definition written_paths (t : list event) : list string :=
  flat_map (fun e => match e with WriteText p _ => [p] | _ => [] end) t.

(** The entry [fn] of [context_dir] puts the value [v] under the key [k]:
    [k] is its name without the extension, the extension is one of the three
    that are read, and [v], which is not [None], is its parsed content. *)
Definition contributes (w : world) (st : state) (context_dir fn k : string)
    (v : pyobj) : Prop :=
  fst (Path.splitext fn) = k
  /\ v <> PNone
  /\ exists text : string,
       OS.read st (Path.join context_dir [fn]) = Some text
       /\ (snd (Path.splitext fn) = ".json" /\ json_loads w text = Some v
           \/ (snd (Path.splitext fn) = ".yml"
               \/ snd (Path.splitext fn) = ".yaml")
              /\ yaml_safe_load w text = Some v).

(** Every directory of [n] is a directory of [n'], with at least the same
    names in it. *)
Definition grows (n n' : node) : Prop :=
  forall names es,
    FS.get n names = Some (Dir es) ->
    exists es',
      FS.get n' names = Some (Dir es')
      /\ forall c x, FS.assoc c es = Some x -> exists x', FS.assoc c es' = Some x'.

(** The entry [fn] of [context_dir] does not stop [generate_context]: when
    its extension is one of the three that are read, it can be read and its
    text parses. *)
Definition loadable (w : world) (st : state) (context_dir fn : string) : Prop :=
  (snd (Path.splitext fn) = ".json" ->
   exists text v,
     OS.read st (Path.join context_dir [fn]) = Some text
     /\ json_loads w text = Some v)
  /\ (snd (Path.splitext fn) = ".yml" \/ snd (Path.splitext fn) = ".yaml" ->
      exists text v,
        OS.read st (Path.join context_dir [fn]) = Some text
        /\ yaml_safe_load w text = Some v).

(** [comps] is what the loop of [normpath] leaves alone when it starts with
    [k] leading separators: every component would be appended again. *)
Definition settled (k : nat) (comps : list string) : Prop :=
  forall acc c rest,
    comps = (acc ++ c :: rest)%list ->
    Path.norm_step k acc c = (acc ++ [c])%list.

(** Same files, same working directory. *)
Definition same_files (st st' : state) : Prop :=
  root st' = root st /\ cwd st' = cwd st.

Definition is_missing (e : exn) : bool :=
  match e with MissingTemplateDirException _ => true | _ => false end.

(** [m] never raises [MissingTemplateDirException]. *)
Definition unmissing {A} (m : M A) : Prop :=
  forall st e st', m st = (Raise e, st') -> is_missing e = false.

Definition is_print (e : event) : bool :=
  match e with Print _ => true | _ => false end.

(** The lines a trace records as printed, oldest first. *)
Definition printed (t : list event) : list event := List.filter is_print t.

(** [m] prints nothing. *)
Definition mute {A} (m : M A) : Prop :=
  forall st r st', m st = (r, st') -> printed (trace st') = printed (trace st).

(** [m] writes no file and stays in the working directory. *)
Definition silent {A} (m : M A) : Prop :=
  forall st r st',
    m st = (r, st') ->
    written_paths (trace st') = written_paths (trace st) /\ cwd st' = cwd st.



(** What [m] returns, when it returns, satisfies [P]. *)
Definition returns {A} (m : M A) (P : A -> Prop) : Prop :=
  forall st a st', m st = (Return a, st') -> P a.

End Spec.

(** * Facts about the string methods *)

Module StrFacts.

Lemma app_nil_l s : "" +:+ s = s.
Proof. reflexivity. Qed.

Lemma app_cons c s t : String c s +:+ t = String c (s +:+ t).
Proof. reflexivity. Qed.

Lemma app_nil_r s : s +:+ "" = s.
Proof. induction s as [|c s IH]; [reflexivity|]. now rewrite app_cons, IH. Qed.

Lemma app_assoc s t u : (s +:+ t) +:+ u = s +:+ t +:+ u.
Proof.
  induction s as [|c s IH]; [reflexivity|].
  now rewrite !app_cons, IH.
Qed.

Lemma app_eq_nil s t : s +:+ t = "" -> s = "" /\ t = "".
Proof. destruct s; [now rewrite app_nil_l|]. rewrite app_cons. discriminate. Qed.

Lemma prefix_nil s : String.prefix "" s = true.
Proof. now destruct s. Qed.

Lemma startswith_app s t p :
  s <> "" -> Str.startswith (s +:+ t) (String p "") = Str.startswith s (String p "").
Proof.
  destruct s as [|c s]; [congruence|]. intros _.
  rewrite app_cons. unfold Str.startswith. simpl.
  destruct (ascii_dec p c); [|reflexivity].
  now rewrite !prefix_nil.
Qed.

Lemma endswith_cons x s c :
  s <> "" -> Str.endswith (String x s) c = Str.endswith s c.
Proof. destruct s; [congruence|reflexivity]. Qed.

Lemma endswith_app s t c :
  t <> "" -> Str.endswith (s +:+ t) c = Str.endswith t c.
Proof.
  intros Ht. induction s as [|x s IH]; [reflexivity|].
  rewrite app_cons, endswith_cons; [exact IH|].
  intros E. apply app_eq_nil in E. tauto.
Qed.

Lemma endswith_occurs s c : Str.endswith s c = true -> Spec.occurs c s = true.
Proof.
  induction s as [|x s IH]; [discriminate|].
  destruct s as [|y s].
  - simpl. intros ->. reflexivity.
  - intros H. rewrite endswith_cons in H by discriminate.
    change (Spec.occurs c (String x (String y s)))
      with (Ascii.eqb x c || Spec.occurs c (String y s)).
    rewrite (IH H). apply orb_true_r.
Qed.

Lemma startswith_char s c :
  Str.startswith s (String c "") = true -> exists s', s = String c s'.
Proof.
  destruct s as [|x s]; [discriminate|].
  unfold Str.startswith. cbn [String.prefix].
  destruct (ascii_dec c x) as [->|]; [|discriminate].
  intros _. now exists s.
Qed.

Lemma startswith_occurs s c :
  Str.startswith s (String c "") = true -> Spec.occurs c s = true.
Proof.
  destruct s as [|x s]; [discriminate|].
  unfold Str.startswith. simpl.
  destruct (ascii_dec c x) as [->|]; [|discriminate].
  intros _. simpl. now rewrite Ascii.eqb_refl.
Qed.

Lemma take_app s t : Str.take (String.length s) (s +:+ t) = s.
Proof. induction s as [|c s IH]; [now destruct t|]. rewrite app_cons. simpl. now rewrite IH. Qed.

Lemma drop_app s t : Str.drop (String.length s) (s +:+ t) = t.
Proof. induction s as [|c s IH]; [now destruct t|]. rewrite app_cons. simpl. exact IH. Qed.

Lemma rfind_absent s c : Spec.occurs c s = false -> Str.rfind s c = (-1)%Z.
Proof.
  induction s as [|x s IH]; [reflexivity|]. simpl.
  intros H. apply orb_false_elim in H as [Hx Hs].
  rewrite (IH Hs), Hx. reflexivity.
Qed.

Lemma rfind_app s t c :
  Spec.occurs c t = false -> Str.rfind (s +:+ t) c = Str.rfind s c.
Proof.
  intros Ht. induction s as [|x s IH].
  - rewrite app_nil_l. now apply rfind_absent.
  - rewrite app_cons. simpl. now rewrite IH.
Qed.

Lemma rfind_endswith s c :
  Str.endswith s c = true -> Str.rfind s c = (Z.of_nat (String.length s) - 1)%Z.
Proof.
  induction s as [|x s IH]; [discriminate|].
  destruct s as [|y s].
  - simpl. intros ->. reflexivity.
  - intros H. rewrite endswith_cons in H by discriminate.
    specialize (IH H).
    change (Str.rfind (String x (String y s)) c)
      with (let r := Str.rfind (String y s) c in
            if (0 <=? r)%Z then (r + 1)%Z
            else if Ascii.eqb x c then 0%Z else (-1)%Z).
    cbv zeta. rewrite IH.
    change (String.length (String x (String y s)))
      with (S (String.length (String y s))).
    change (String.length (String y s)) with (S (String.length s)).
    destruct (0 <=? Z.of_nat (S (String.length s)) - 1)%Z eqn:E.
    + lia.
    + apply Z.leb_gt in E. lia.
Qed.

Lemma rstrip_all s c :
  String.eqb s (Str.replicate (String.length s) c) = true -> Str.rstrip s c = "".
Proof.
  induction s as [|x s IH]; [reflexivity|].
  simpl. destruct (Ascii.eqb x c) eqn:E; [|discriminate].
  intros H. now rewrite (IH H).
Qed.

Lemma rstrip_snoc s c :
  s <> "" -> Str.endswith s c = false -> Str.rstrip (s +:+ String c "") c = s.
Proof.
  induction s as [|x s IH]; [congruence|]. intros _ H.
  rewrite app_cons.
  destruct s as [|y s].
  - simpl in H. rewrite app_nil_l. simpl. rewrite Ascii.eqb_refl, H. reflexivity.
  - rewrite endswith_cons in H by discriminate.
    change (Str.rstrip (String x (String y s +:+ String c "")) c)
      with (match Str.rstrip (String y s +:+ String c "") c with
            | "" => if Ascii.eqb x c then "" else String x ""
            | r => String x r
            end).
    rewrite IH by (discriminate || assumption). reflexivity.
Qed.

Lemma hd_split s c : hd "" (Str.split s c) = Spec.before c s.
Proof.
  induction s as [|x s IH]; [reflexivity|]. simpl.
  destruct (Ascii.eqb x c); [reflexivity|].
  destruct (Str.split s c); simpl in *; now rewrite <- IH.
Qed.

Lemma split_clean s c : Forall (fun x => Spec.occurs c x = false) (Str.split s c).
Proof.
  induction s as [|x s IH]; simpl.
  - now constructor.
  - destruct (Ascii.eqb x c) eqn:E.
    + now constructor.
    + destruct (Str.split s c) as [|h t].
      * constructor; [simpl; now rewrite E|constructor].
      * inversion IH; subst. constructor; [simpl; now rewrite E|assumption].
Qed.

Lemma join_snoc c l x :
  l <> [] -> Str.join c (l ++ [x]) = Str.join c l +:+ String c x.
Proof.
  induction l as [|y l IH]; [congruence|]. intros _.
  destruct l as [|z l]; [reflexivity|].
  change (Str.join c ((y :: z :: l) ++ [x]))
    with (y +:+ String c (Str.join c ((z :: l) ++ [x]))).
  rewrite IH by discriminate.
  change (Str.join c (y :: z :: l)) with (y +:+ String c (Str.join c (z :: l))).
  now rewrite app_assoc, app_cons.
Qed.

End StrFacts.

(** * Facts about [posixpath] *)

Module PathFacts.
Import StrFacts.

Lemma join_cons a b l : Path.join a (b :: l) = Path.join (Path.join2 a b) l.
Proof. reflexivity. Qed.

Lemma join2_absolute a b : Str.startswith b "/" = true -> Path.join2 a b = b.
Proof. unfold Path.join2. now intros ->. Qed.

Lemma join2_nil_l b : Path.join2 "" b = b.
Proof. unfold Path.join2. now destruct (Str.startswith b "/"). Qed.

Lemma join2_relative a b :
  Str.startswith b "/" = false -> Path.join2 a b = a +:+ Spec.glue a +:+ b.
Proof.
  unfold Path.join2, Spec.glue. intros ->.
  destruct (negb (Str.truthy a) || Str.endswith a Path.sep); reflexivity.
Qed.

Lemma glue_app a b : b <> "" -> Spec.glue (a +:+ b) = Spec.glue b.
Proof.
  intros Hb. unfold Spec.glue.
  rewrite endswith_app by assumption.
  destruct b as [|c b]; [congruence|].
  destruct (a +:+ String c b) eqn:E; [|reflexivity].
  apply app_eq_nil in E as [_ E]. discriminate.
Qed.

Lemma glue_glue a : Spec.glue (a +:+ Spec.glue a) = "".
Proof.
  unfold Spec.glue at 2.
  destruct (negb (Str.truthy a) || Str.endswith a Path.sep) eqn:E.
  - rewrite app_nil_r. unfold Spec.glue. now rewrite E.
  - unfold Spec.glue. rewrite endswith_app by discriminate. simpl.
    now rewrite orb_true_r.
Qed.

(** [os.path.join] does not depend on how its arguments are grouped. *)
Lemma join2_assoc a b c :
  Path.join2 a (Path.join2 b c) = Path.join2 (Path.join2 a b) c.
Proof.
  destruct (Str.startswith c "/") eqn:Hc.
  { now rewrite !(join2_absolute _ c). }
  rewrite (join2_relative b c), (join2_relative _ c) by assumption.
  destruct b as [|x b].
  - rewrite app_nil_l. change (Spec.glue "") with "". rewrite app_nil_l.
    rewrite (join2_relative a "") by reflexivity.
    rewrite app_nil_r, (join2_relative a c) by assumption.
    now rewrite glue_glue, app_nil_l, app_assoc.
  - destruct (Str.startswith (String x b) "/") eqn:Hb.
    + rewrite (join2_absolute a (String x b)) by assumption.
      apply join2_absolute.
      now rewrite startswith_app by discriminate.
    + rewrite (join2_relative a (String x b)) by assumption.
      rewrite join2_relative by now rewrite startswith_app by discriminate.
      rewrite <- (app_assoc a (Spec.glue a) (String x b)).
      rewrite (glue_app (a +:+ Spec.glue a)) by discriminate.
      now rewrite !app_assoc.
Qed.

(** An empty argument of [os.path.join] in the middle leaves no trace. *)
Lemma join2_skip_empty a b : Path.join2 (Path.join2 a "") b = Path.join2 a b.
Proof. now rewrite <- join2_assoc, join2_nil_l. Qed.

Lemma cut_app h t :
  h = "" \/ Str.endswith h Path.sep = true ->
  Spec.occurs Path.sep t = false ->
  Path.cut (h +:+ t) = (h, t).
Proof.
  intros Hh Ht. unfold Path.cut.
  rewrite rfind_app by assumption.
  destruct Hh as [->|Hh].
  - now destruct t.
  - rewrite (rfind_endswith _ _ Hh).
    replace (Z.to_nat (Z.of_nat (String.length h) - 1 + 1)) with (String.length h) by lia.
    now rewrite take_app, drop_app.
Qed.

Lemma dirname_cut p h t :
  Path.cut p = (h, t) ->
  Path.dirname p =
    if Str.truthy h && negb (String.eqb h (Str.replicate (String.length h) Path.sep))
    then Str.rstrip h Path.sep else h.
Proof. unfold Path.dirname. now intros ->. Qed.

Lemma basename_cut p h t : Path.cut p = (h, t) -> Path.basename p = t.
Proof. unfold Path.basename. now intros ->. Qed.

Lemma component_relative c :
  Spec.component c -> Str.startswith c "/" = false.
Proof.
  intros [_ H]. destruct (Str.startswith c "/") eqn:E; [|reflexivity].
  apply startswith_occurs in E. unfold Path.sep in H. congruence.
Qed.

Lemma component_open c :
  Spec.component c -> Str.endswith c Path.sep = false.
Proof.
  intros [_ H]. destruct (Str.endswith c Path.sep) eqn:E; [|reflexivity].
  apply endswith_occurs in E. congruence.
Qed.

(** A run of components joined by separators is not empty and does not
    end in a separator. *)
Lemma join_components l :
  Forall Spec.component l -> l <> [] ->
  Str.join Path.sep l <> "" /\ Str.endswith (Str.join Path.sep l) Path.sep = false.
Proof.
  induction 1 as [|c l Hc Hl IH]; [congruence|]. intros _.
  destruct l as [|d l].
  - split; [apply Hc|now apply component_open].
  - destruct IH as [IH1 IH2]; [discriminate|].
    change (Str.join Path.sep (c :: d :: l))
      with (c +:+ String Path.sep (Str.join Path.sep (d :: l))).
    split.
    + intros E. apply app_eq_nil in E as [_ E]. discriminate.
    + rewrite endswith_app by discriminate.
      rewrite endswith_cons by assumption. exact IH2.
Qed.

(** A normalized path is its directory joined with its base name. *)
Lemma normal_split p :
  Spec.normal p -> Path.join2 (Path.dirname p) (Path.basename p) = p.
Proof.
  intros (k & comps & Hk & Hall & Hne & ->).
  destruct comps as [|c0 comps0] using rev_ind.
  - (* only separators *)
    destruct k as [|[|[|k]]]; [now destruct Hne|reflexivity|reflexivity|lia].
  - clear IHcomps0.
    apply Forall_app in Hall as [Hcs Hc]. inversion Hc as [|? ? Hc0 _]; subst.
    pose proof (component_relative _ Hc0) as Hrel.
    destruct Hc0 as [Hc1 Hc2].
    destruct comps0 as [|d cs].
    + (* a single component below the leading separators *)
      change (Str.join Path.sep ([] ++ [c0])) with c0.
      assert (Hcut : Path.cut (Str.replicate k Path.sep +:+ c0)
                     = (Str.replicate k Path.sep, c0)).
      { apply cut_app; [|assumption].
        destruct k as [|[|[|k]]]; [now left|now right|now right|lia]. }
      rewrite (dirname_cut _ _ _ Hcut), (basename_cut _ _ _ Hcut).
      destruct k as [|[|[|k]]]; [| | |lia]; cbn [Str.replicate].
      * simpl. now rewrite join2_nil_l.
      * simpl. now rewrite join2_relative by assumption.
      * simpl. now rewrite join2_relative by assumption.
    + (* several components *)
      rewrite join_snoc by discriminate.
      destruct (join_components (d :: cs) Hcs) as [Hj1 Hj2]; [discriminate|].
      set (j := Str.join Path.sep (d :: cs)) in *.
      set (x := Str.replicate k Path.sep +:+ j).
      assert (Hx1 : x <> "").
      { unfold x. intros E. apply app_eq_nil in E. tauto. }
      assert (Hx2 : Str.endswith x Path.sep = false).
      { unfold x. now rewrite endswith_app. }
      replace (Str.replicate k Path.sep +:+ j +:+ String Path.sep c0)
        with ((x +:+ String Path.sep "") +:+ c0)
        by (unfold x; now rewrite !app_assoc).
      assert (Hcut : Path.cut ((x +:+ String Path.sep "") +:+ c0)
                     = (x +:+ String Path.sep "", c0)).
      { apply cut_app; [right|assumption].
        now rewrite endswith_app by discriminate. }
      rewrite (dirname_cut _ _ _ Hcut), (basename_cut _ _ _ Hcut).
      pose proof (rstrip_snoc x Path.sep Hx1 Hx2) as Hstrip.
      destruct (String.eqb (x +:+ String Path.sep "")
                  (Str.replicate (String.length (x +:+ String Path.sep "")) Path.sep)) eqn:E.
      { apply rstrip_all in E. rewrite Hstrip in E. congruence. }
      destruct (x +:+ String Path.sep "") eqn:E0.
      { apply app_eq_nil in E0. tauto. }
      cbn [Str.truthy negb andb]. rewrite Hstrip, <- E0.
      rewrite join2_relative by assumption.
      unfold Spec.glue. rewrite Hx2.
      destruct x; [congruence|]. cbn [Str.truthy negb orb].
      now rewrite !app_assoc.
Qed.

Lemma Forall_removelast {A} (P : A -> Prop) l :
  Forall P l -> Forall P (removelast l).
Proof.
  induction 1 as [|x l Hx Hl IH]; [constructor|].
  destruct l; [constructor|]. simpl. constructor; assumption.
Qed.

Lemma norm_step_components k acc comp :
  Forall Spec.component acc -> Spec.occurs Path.sep comp = false ->
  Forall Spec.component (Path.norm_step k acc comp).
Proof.
  intros Hacc Hcomp. unfold Path.norm_step.
  destruct (String.eqb comp "") eqn:E; [assumption|].
  apply String.eqb_neq in E. cbn [orb].
  destruct (String.eqb comp Path.curdir); [assumption|].
  match goal with |- Forall _ (if ?b then _ else _) => destruct b end.
  - apply Forall_app. split; [assumption|]. constructor; [now split|constructor].
  - now apply Forall_removelast.
Qed.

Lemma norm_loop_components k comps acc :
  Forall Spec.component acc ->
  Forall (fun c => Spec.occurs Path.sep c = false) comps ->
  Forall Spec.component (fold_left (Path.norm_step k) comps acc).
Proof.
  intros Hacc Hcomps. revert acc Hacc.
  induction Hcomps as [|c comps Hc _ IH]; intros acc Hacc; [assumption|].
  simpl. apply IH. now apply norm_step_components.
Qed.

Lemma dot_normal : Spec.normal ".".
Proof.
  exists 0, ["."]. repeat split; [lia| |discriminate].
  constructor; [|constructor]. split; [discriminate|reflexivity].
Qed.

(** [os.path.normpath] returns normalized paths. *)
Lemma normpath_normal path : Spec.normal (Path.normpath path).
Proof.
  unfold Path.normpath.
  destruct (String.eqb path ""); [apply dot_normal|].
  set (k := if Str.startswith path "/" then
              if Str.startswith path "//" && negb (Str.startswith path "///")
              then 2 else 1
            else 0).
  set (comps := fold_left (Path.norm_step k) (Str.split path Path.sep) []).
  assert (Hk : k <= 2).
  { unfold k. destruct (Str.startswith path "/"); [|lia].
    destruct (Str.startswith path "//" && negb (Str.startswith path "///")); lia. }
  assert (Hc : Forall Spec.component comps).
  { apply norm_loop_components; [constructor|apply split_clean]. }
  destruct (Str.truthy _) eqn:E; [|apply dot_normal].
  exists k, comps. repeat split; try assumption.
  intros -> ->. discriminate.
Qed.

Lemma normpath_split path :
  Path.join2 (Path.dirname (Path.normpath path)) (Path.basename (Path.normpath path))
  = Path.normpath path.
Proof. apply normal_split, normpath_normal. Qed.

End PathFacts.

(** * The output file name *)

Section OutputFilename.

Variables (template_filepath output_dir : string).
Variables (force_unexpanded expand : bool).

Let p := Path.normpath template_filepath.

Lemma get_output_filename_unfold :
  get_output_filename template_filepath output_dir force_unexpanded expand =
  if Str.startswith (Path.basename p) "base" then None
  else if force_unexpanded || String.eqb (Path.basename p) "index.html"
          || negb expand
  then Some (Path.join output_dir [p])
  else Some (Path.join output_dir
               [Path.dirname p; Spec.before "." (Path.basename p); "index.html"]).
Proof.
  unfold get_output_filename. fold p. now rewrite StrFacts.hd_split.
Qed.

End OutputFilename.

(** C2: for a template path whose base name does not start with "base"
    (base name and directory are those of the normalized path, which is what
    the function works on), the output is [output_dir] joined with the path
    as it is when [force_unexpanded] holds, or the base name is "index.html",
    or [expand] is off; otherwise it is
    [output_dir/dirname/stem/index.html], the stem being the part of the base
    name before its first dot.  For instance "art/page.html" goes to
    "www/art/page/index.html". *)
Theorem get_output_filename_rules
    (template_filepath output_dir : string) (force_unexpanded expand : bool) :
  let p := Path.normpath template_filepath in
  Str.startswith (Path.basename p) "base" = false ->
  (force_unexpanded = true \/ Path.basename p = "index.html" \/ expand = false ->
   get_output_filename template_filepath output_dir force_unexpanded expand
   = Some (Path.join output_dir [p]))
  /\ (force_unexpanded = false -> Path.basename p <> "index.html" ->
      expand = true ->
      get_output_filename template_filepath output_dir force_unexpanded expand
      = Some (Path.join output_dir
                [Path.dirname p; Spec.before "." (Path.basename p); "index.html"]))
  /\ get_output_filename "art/page.html" "www" false true
     = Some "www/art/page/index.html".
Proof.
  intros p Hbase. rewrite get_output_filename_unfold. fold p. rewrite Hbase.
  split; [|split; [|reflexivity]].
  - intros [-> | [-> | ->]]; [reflexivity| |].
    + now rewrite orb_true_r.
    + now rewrite orb_true_r.
  - intros -> Hidx ->. apply String.eqb_neq in Hidx. now rewrite Hidx.
Qed.

Lemma get_output_filename_rules_witness :
  Str.startswith (Path.basename (Path.normpath "blog//2013/./post.html")) "base" = false
  /\ get_output_filename "blog//2013/./post.html" "www" false false
     = Some "www/blog/2013/post.html"
  /\ get_output_filename "blog//2013/./post.html" "www" false true
     = Some "www/blog/2013/post/index.html".
Proof.
  pose proof (get_output_filename_rules "blog//2013/./post.html" "www" false false
                eq_refl) as [Hflat _].
  pose proof (get_output_filename_rules "blog//2013/./post.html" "www" false true
                eq_refl) as [_ [Hdeep _]].
  split; [reflexivity|]. split.
  - apply Hflat. right. right. reflexivity.
  - apply Hdeep; [reflexivity|discriminate|reflexivity].
Defined.

(** C3: a template path whose base name, after normalization, starts with
    "base" has no output, whatever the two flags are. *)
Theorem get_output_filename_base
    (template_filepath output_dir : string) (force_unexpanded expand : bool) :
  Str.startswith (Path.basename (Path.normpath template_filepath)) "base" = true ->
  get_output_filename template_filepath output_dir force_unexpanded expand = None.
Proof.
  intros Hbase. rewrite get_output_filename_unfold. now rewrite Hbase.
Qed.

Lemma get_output_filename_base_witness :
  Str.startswith (Path.basename (Path.normpath "blog/./base_post.html")) "base" = true
  /\ get_output_filename "blog/./base_post.html" "www" true false = None
  /\ get_output_filename "blog/./base_post.html" "www" false true = None.
Proof.
  split; [reflexivity|].
  split; apply get_output_filename_base; reflexivity.
Defined.

(** C10: a hidden file (base name starting with a dot), expanded, has the
    empty stem; [os.path.join] drops the empty segment, so the output is
    [output_dir/dirname/index.html], which is also where every file named
    "index.html" of the same directory goes, under any flags. *)
Theorem get_output_filename_hidden
    (template_filepath output_dir : string) :
  let p := Path.normpath template_filepath in
  Str.startswith (Path.basename p) "." = true ->
  Str.startswith (Path.basename p) "base" = false
  /\ Path.basename p <> "index.html"
  /\ hd "" (Str.split (Path.basename p) ".") = ""
  /\ get_output_filename template_filepath output_dir false true
     = Some (Path.join output_dir [Path.dirname p; "index.html"])
  /\ forall (other : string) (force_unexpanded expand : bool),
       Path.dirname (Path.normpath other) = Path.dirname p ->
       Path.basename (Path.normpath other) = "index.html" ->
       get_output_filename other output_dir force_unexpanded expand
       = get_output_filename template_filepath output_dir false true.
Proof.
  intros p Hdot.
  apply StrFacts.startswith_char in Hdot as [b Hb].
  assert (Hout : get_output_filename template_filepath output_dir false true
                 = Some (Path.join output_dir [Path.dirname p; "index.html"])).
  { rewrite get_output_filename_unfold. fold p. rewrite Hb.
    change (Some (Path.join output_dir [Path.dirname p; ""; "index.html"])
            = Some (Path.join output_dir [Path.dirname p; "index.html"])).
    rewrite !PathFacts.join_cons. now rewrite PathFacts.join2_skip_empty. }
  rewrite Hb.
  split; [reflexivity|]. split; [discriminate|]. split; [reflexivity|].
  split; [exact Hout|].
  intros other fu ex Hdir Hidx. rewrite Hout.
  rewrite get_output_filename_unfold, Hidx.
  change (Str.startswith "index.html" "base") with false.
  change (String.eqb "index.html" "index.html") with true.
  rewrite orb_true_r. cbn [orb]. f_equal.
  now rewrite <- (PathFacts.normpath_split other), Hdir, Hidx,
    !PathFacts.join_cons, PathFacts.join2_assoc.
Qed.

Lemma get_output_filename_hidden_witness :
  Str.startswith (Path.basename (Path.normpath "art/.htaccess")) "." = true
  /\ get_output_filename "art/.htaccess" "www" false true = Some "www/art/index.html"
  /\ get_output_filename "art/index.html" "www" false true
     = get_output_filename "art/.htaccess" "www" false true.
Proof.
  pose proof (get_output_filename_hidden "art/.htaccess" "www" eq_refl)
    as (_ & _ & _ & Hout & Hsame).
  split; [reflexivity|]. split; [exact Hout|].
  apply Hsame; reflexivity.
Defined.

(** * [minify_html] against the wording of the specification *)

Module MinifyFacts.
Import StrFacts.

Lemma drop_succ n s d r : Str.drop n s = String d r -> Str.drop (S n) s = r.
Proof.
  revert s. induction n as [|n IH]; intros s H.
  - destruct s; simpl in H; [discriminate|]. now inversion H.
  - destruct s as [|c s]; [discriminate|]. simpl in *. now apply IH.
Qed.

Lemma length_drop n s : String.length (Str.drop n s) <= String.length s.
Proof.
  revert s. induction n as [|n IH]; intros [|c s]; simpl; try lia.
  specialize (IH s). lia.
Qed.

Lemma sub_from_skip p repl k s :
  Re.sub_from p repl k s = Re.sub_from p repl 0 (Str.drop k s).
Proof.
  revert k. induction s as [|c s IH]; intros [|k]; try reflexivity.
  simpl. apply IH.
Qed.

Lemma reaches_lt_spaces s :
  MinifySpec.reaches_lt s =
  match Str.drop (Re.spaces s) s with
  | String d _ => Ascii.eqb d "<"
  | "" => false
  end.
Proof.
  induction s as [|c s IH]; [reflexivity|]. simpl.
  destruct (Re.isspace c); [exact IH|reflexivity].
Qed.

Lemma strip_reaching s :
  MinifySpec.reaches_lt s = true ->
  MinifySpec.strip_between true s =
  String "<" (MinifySpec.strip_between false (Str.drop (S (Re.spaces s)) s)).
Proof.
  induction s as [|c s IH]; [discriminate|]. simpl.
  destruct (Re.isspace c) eqn:Hc.
  - intros H. rewrite H. now apply IH.
  - intros H. apply Ascii.eqb_eq in H. subst c. now destruct s.
Qed.

Lemma strip_not_reaching s :
  MinifySpec.reaches_lt s = false \/ Re.spaces s = 0 ->
  MinifySpec.strip_between true s = MinifySpec.strip_between false s.
Proof.
  induction s as [|c s IH]; [reflexivity|]. simpl.
  destruct (Re.isspace c) eqn:Hc; [|reflexivity].
  intros [H|H]; [|discriminate].
  rewrite H. cbn [andb]. f_equal. apply IH. now left.
Qed.

Lemma sub_strip n s :
  String.length s <= n ->
  Re.sub_from Re.gt_spaces_lt "><" 0 s = MinifySpec.strip_between false s.
Proof.
  revert s. induction n as [|n IH]; intros [|c r] Hlen; try reflexivity.
  { simpl in Hlen. lia. }
  simpl in Hlen.
  assert (Hr : Re.sub_from Re.gt_spaces_lt "><" 0 r
               = MinifySpec.strip_between false r) by (apply IH; lia).
  cbn [Re.sub_from MinifySpec.strip_between Re.gt_spaces_lt].
  destruct (Ascii.eqb c ">") eqn:Hc.
  - apply Ascii.eqb_eq in Hc. subst c.
    change (Re.isspace ">") with false. cbv iota.
    pose proof (reaches_lt_spaces r) as Hreach.
    destruct (Re.spaces r) as [|k] eqn:Hk.
    { rewrite Hr. f_equal. symmetry. apply strip_not_reaching. now right. }
    destruct (Str.drop (S k) r) as [|d r2] eqn:Hd.
    { rewrite Hr. f_equal. symmetry. apply strip_not_reaching. now left. }
    destruct (Ascii.eqb d "<") eqn:Hlt.
    + rewrite strip_reaching by assumption.
      rewrite sub_from_skip, Hk, (drop_succ _ _ _ _ Hd).
      rewrite IH; [reflexivity|].
      pose proof (length_drop (S k) r) as Hle. rewrite Hd in Hle. simpl in Hle. lia.
    + rewrite Hr. f_equal. symmetry. apply strip_not_reaching. now left.
  - rewrite Hr. now destruct (Re.isspace c).
Qed.

End MinifyFacts.

(** C7: [minify_html] drops every run of whitespace that sits between a [>]
    and the following [<] and keeps every other character, so whitespace
    inside text stays; the page of the example becomes
    "<a><b>text  more</b></a>". *)
Theorem minify_html_strips_between_tags :
  (forall html : string, minify_html html = MinifySpec.strip_between false html)
  /\ minify_html Sample.page = "<a><b>text  more</b></a>".
Proof.
  split; [|reflexivity].
  intros html. unfold minify_html, Re.sub.
  now apply (MinifyFacts.sub_strip (String.length html)).
Qed.

(** * Runs of the state-and-exception monad *)

Module RunFacts.

Lemma bind_inv {A B} (m : M A) (k : A -> M B) st r st2 :
  bind m k st = (r, st2) ->
  (exists a st1, m st = (Return a, st1) /\ k a st1 = (r, st2))
  \/ (exists e, m st = (Raise e, st2) /\ r = Raise e).
Proof.
  unfold bind. destruct (m st) as [[a|e] st1].
  - left. now exists a, st1.
  - intros H. inversion H; subst. right. now exists e.
Qed.

Lemma unmissing_ret {A} (a : A) : Spec.unmissing (ret a).
Proof. intros st e st' H. discriminate. Qed.

Lemma unmissing_bind {A B} (m : M A) (k : A -> M B) :
  Spec.unmissing m -> (forall a, Spec.unmissing (k a)) -> Spec.unmissing (bind m k).
Proof.
  intros Hm Hk st e st' H.
  apply bind_inv in H as [(a & st1 & _ & H)|(e' & H & E)].
  - now apply (Hk a st1 e st').
  - inversion E; subst. now apply (Hm st e' st').
Qed.

Lemma unmissing_when b (m : M unit) : Spec.unmissing m -> Spec.unmissing (when b m).
Proof. destruct b; [trivial|]. intros _. apply unmissing_ret. Qed.

Lemma unmissing_for_each {A} (l : list A) (body : A -> M unit) :
  (forall x, Spec.unmissing (body x)) -> Spec.unmissing (for_each l body).
Proof.
  intros Hbody. induction l as [|x l IH]; [apply unmissing_ret|].
  simpl. apply unmissing_bind; [apply Hbody|intros _; exact IH].
Qed.

Lemma unmissing_emit ev : Spec.unmissing (emit ev).
Proof. intros st e st' H. discriminate. Qed.

(** A primitive whose body is a pattern match on the state: every branch is
    inspected. *)
Ltac by_cases H :=
  repeat match type of H with
         | context [match ?x with _ => _ end] => destruct x
         | context [if ?x then _ else _] => destruct x
         end;
  inversion H; subst; reflexivity.

Lemma unmissing_relpath path start : Spec.unmissing (OS.relpath path start).
Proof. intros st e st' H. unfold OS.relpath in H. by_cases H. Qed.

Lemma unmissing_walk top : Spec.unmissing (OS.walk top).
Proof. intros st e st' H. discriminate. Qed.

Lemma unmissing_read_text path : Spec.unmissing (OS.read_text path).
Proof. intros st e st' H. unfold OS.read_text in H. by_cases H. Qed.

Lemma unmissing_store path data ev : Spec.unmissing (OS.store path data ev).
Proof. intros st e st' H. unfold OS.store in H. by_cases H. Qed.

Lemma unmissing_make_sure_path_exists path :
  Spec.unmissing (OS.make_sure_path_exists path).
Proof. intros st e st' H. discriminate. Qed.

Lemma unmissing_render w searchpath name context :
  Spec.unmissing (OS.render w searchpath name context).
Proof. intros st e st' H. unfold OS.render in H. by_cases H. Qed.

Lemma unmissing_is_binary w path : Spec.unmissing (OS.is_binary w path).
Proof.
  apply unmissing_bind; [apply unmissing_read_text|intros; apply unmissing_ret].
Qed.

Lemma unmissing_ignore w path : Spec.unmissing (_ignore w path).
Proof.
  apply unmissing_bind; [apply unmissing_is_binary|]. intros b.
  repeat match goal with |- Spec.unmissing (if ?c then _ else _) => destruct c end;
    apply unmissing_ret.
Qed.

Lemma unmissing_generate_html_file w tp out env ctx fu minify expand :
  Spec.unmissing (generate_html_file w tp out env ctx fu minify expand).
Proof.
  unfold generate_html_file.
  destruct (Str.startswith tp "base"); [apply unmissing_ret|].
  apply unmissing_bind; [apply unmissing_render|]. intros html.
  destruct (get_output_filename tp out fu expand) as [o|]; [|apply unmissing_ret].
  destruct (Str.truthy o); [|apply unmissing_ret].
  apply unmissing_bind; [apply unmissing_make_sure_path_exists|]. intros _.
  apply unmissing_bind; [apply unmissing_store|]. intros _. apply unmissing_ret.
Qed.

Lemma unmissing_generate_html_step w td out env ctx unexp expand quiet root f :
  Spec.unmissing (generate_html_step w td out env ctx unexp expand quiet root f).
Proof.
  unfold generate_html_step.
  apply unmissing_bind; [apply unmissing_relpath|]. intros tp.
  apply unmissing_bind; [apply unmissing_emit|]. intros _.
  apply unmissing_bind; [apply unmissing_ignore|]. intros [|].
  - apply unmissing_when, unmissing_emit.
  - apply unmissing_bind; [apply unmissing_when, unmissing_emit|]. intros _.
    apply unmissing_bind; [apply unmissing_generate_html_file|]. intros _.
    apply unmissing_ret.
Qed.

Lemma returns_ret {A} (a : A) (P : A -> Prop) : P a -> Spec.returns (ret a) P.
Proof. intros H st a' st' E. inversion E; now subst. Qed.

Lemma returns_bind {A B} (m : M A) (k : A -> M B) (P : B -> Prop) :
  (forall a, Spec.returns (k a) P) -> Spec.returns (bind m k) P.
Proof.
  intros Hk st b st' H.
  apply bind_inv in H as [(a & st1 & _ & H)|(e & _ & E)]; [|discriminate].
  now apply (Hk a st1 b st').
Qed.

End RunFacts.

(** * [_ignore] *)

(** C4: on a regular file, [_ignore] answers true exactly when the content
    is classified as binary, or the base name is "complexity.yml", or the
    extension is ".j2" or ".yml"; it answers false for every other file. *)
Theorem ignore_iff (w : world) (path : string) (st : state) (data : string) :
  OS.read st path = Some data ->
  exists b : bool,
    _ignore w path st = (Return b, st)
    /\ (b = true <->
        is_binary_string w (Str.take 1024 data) = true
        \/ Path.basename path = "complexity.yml"
        \/ snd (Path.splitext path) = ".j2"
        \/ snd (Path.splitext path) = ".yml").
Proof.
  intros Hread.
  unfold _ignore, OS.is_binary, OS.read_text, bind, ret. rewrite Hread.
  destruct (is_binary_string w (Str.take 1024 data)) eqn:Hbin.
  { exists true. split; [reflexivity|]. split; auto. }
  destruct (String.eqb_spec (Path.basename path) "complexity.yml") as [Hfn|Hfn].
  { exists true. split; [reflexivity|]. split; auto. }
  destruct (String.eqb_spec (snd (Path.splitext path)) ".j2") as [Hj|Hj].
  { exists true. split; [reflexivity|]. split; auto. }
  destruct (String.eqb_spec (snd (Path.splitext path)) ".yml") as [Hy|Hy].
  { exists true. split; [reflexivity|]. split; auto. }
  exists false. split; [reflexivity|]. split; [discriminate|].
  intros [H|[H|[H|H]]]; congruence.
Qed.

Lemma ignore_iff_witness :
  OS.read Sample.start "templates/about.html" = Some "<p>About</p>"
  /\ _ignore Sample.plain "templates/about.html" Sample.start
     = (Return false, Sample.start).
Proof.
  split; [reflexivity|].
  destruct (ignore_iff Sample.plain "templates/about.html" Sample.start
              "<p>About</p>" eq_refl) as (b & Hrun & Hb).
  rewrite Hrun. f_equal. f_equal.
  destruct b; [|reflexivity].
  destruct (proj1 Hb eq_refl) as [H|[H|[H|H]]]; discriminate H.
Defined.

(** * [generate_html] *)

Section GenerateHtml.

Variable w : world.
Variables (templates_dir : string) (macro_dirs : list string).
Variables (output_dir : string) (context : option (gmap string pyobj)).
Variables (unexpanded_templates : list string) (expand quiet : bool).

(** What follows the test on the templates directory. *)
Let walk_all : M pyobj :=
  OS.make_sure_path_exists output_dir ;;
  triples <- OS.walk templates_dir ;;
  for_each triples (fun '(root, dirs, files) =>
    emit (Scandir root) ;;
    for_each files
      (generate_html_step w templates_dir output_dir
         (templates_dir :: macro_dirs) (default ∅ context)
         unexpanded_templates expand quiet root)) ;;
  ret PNone.

Let announced (st : state) : state :=
  {| root := root st; cwd := cwd st;
     trace := trace st ++ [Debug "Templates dir is {0}" [PStr templates_dir]] |}.

Lemma generate_html_unfold st :
  generate_html w templates_dir macro_dirs output_dir context
    unexpanded_templates expand quiet st =
  match OS.lookup st templates_dir with
  | Some _ => walk_all (announced st)
  | None =>
      (Raise (MissingTemplateDirException missing_templates_msg), announced st)
  end.
Proof.
  unfold generate_html, OS.debug, bind at 1, emit. fold (announced st).
  unfold bind at 1, OS.path_exists.
  change (OS.lookup (announced st) templates_dir)
    with (OS.lookup st templates_dir).
  now destruct (OS.lookup st templates_dir).
Qed.

Lemma unmissing_walk_all : Spec.unmissing walk_all.
Proof.
  unfold walk_all.
  apply RunFacts.unmissing_bind; [apply RunFacts.unmissing_make_sure_path_exists|].
  intros _.
  apply RunFacts.unmissing_bind; [apply RunFacts.unmissing_walk|]. intros triples.
  apply RunFacts.unmissing_bind; [|intros; apply RunFacts.unmissing_ret].
  apply RunFacts.unmissing_for_each. intros [[root dirs] files].
  apply RunFacts.unmissing_bind; [apply RunFacts.unmissing_emit|]. intros _.
  apply RunFacts.unmissing_for_each. intros f.
  apply RunFacts.unmissing_generate_html_step.
Qed.

Lemma returns_walk_all : Spec.returns walk_all (fun v => v = PNone).
Proof.
  unfold walk_all.
  do 3 (apply RunFacts.returns_bind; intros ?).
  now apply RunFacts.returns_ret.
Qed.

Lemma generate_html_missing st :
  let run := generate_html w templates_dir macro_dirs output_dir context
               unexpanded_templates expand quiet st in
  ((exists msg, fst run = Raise (MissingTemplateDirException msg))
   <-> OS.lookup st templates_dir = None)
  /\ (OS.lookup st templates_dir = None ->
      run = (Raise (MissingTemplateDirException missing_templates_msg),
             {| root := root st; cwd := cwd st;
                trace := trace st
                         ++ [Debug "Templates dir is {0}" [PStr templates_dir]] |})).
Proof.
  intros run. unfold run. rewrite generate_html_unfold.
  destruct (OS.lookup st templates_dir) as [n|] eqn:Hlook.
  - split; [|discriminate]. split; [|discriminate].
    intros [msg Hrun].
    destruct (walk_all (announced st)) as [r st'] eqn:Hwalk.
    simpl in Hrun. subst r.
    now apply unmissing_walk_all in Hwalk.
  - split; [|reflexivity]. split; [reflexivity|]. intros _. now eexists.
Qed.

Lemma generate_html_none st v :
  fst (generate_html w templates_dir macro_dirs output_dir context
         unexpanded_templates expand quiet st) = Return v ->
  v = PNone.
Proof.
  rewrite generate_html_unfold.
  destruct (OS.lookup st templates_dir); [|discriminate].
  destruct (walk_all (announced st)) as [r st'] eqn:Hwalk.
  simpl. intros ->. now apply returns_walk_all in Hwalk.
Qed.

End GenerateHtml.

(** C5, as the code has it: [generate_html] raises
    [MissingTemplateDirException] exactly when nothing at all exists at the
    templates path ([os.path.exists] is false); it does so before anything is
    listed, rendered, created or written: the file system is unchanged and
    the only effect is the debug line. *)
Theorem generate_html_missing_templates_dir
    (w : world) (templates_dir : string) (macro_dirs : list string)
    (output_dir : string) (context : option (gmap string pyobj))
    (unexpanded_templates : list string) (expand quiet : bool) (st : state) :
  let run := generate_html w templates_dir macro_dirs output_dir context
               unexpanded_templates expand quiet st in
  ((exists msg, fst run = Raise (MissingTemplateDirException msg))
   <-> OS.lookup st templates_dir = None)
  /\ (OS.lookup st templates_dir = None ->
      run = (Raise (MissingTemplateDirException missing_templates_msg),
             {| root := root st; cwd := cwd st;
                trace := trace st
                         ++ [Debug "Templates dir is {0}" [PStr templates_dir]] |})).
Proof. apply generate_html_missing. Qed.

Lemma generate_html_missing_templates_dir_witness :
  OS.lookup Sample.start "nowhere" = None
  /\ generate_html Sample.plain "nowhere" [] "out" None [] true false Sample.start
     = (Raise (MissingTemplateDirException missing_templates_msg),
        {| root := root Sample.start; cwd := "/home/u";
           trace := [Debug "Templates dir is {0}" [PStr "nowhere"]] |}).
Proof.
  split; [reflexivity|].
  apply (proj2 (generate_html_missing_templates_dir Sample.plain "nowhere" []
                  "out" None [] true false Sample.start)).
  reflexivity.
Defined.

(** C5 as stated fails: a templates path that names a regular file does not
    exist as a directory, and the run does not fail. *)
Lemma generate_html_templates_dir_is_a_file :
  let run := generate_html Sample.plain "notadir" [] "out" None [] true false
               Sample.start in
  ~ ((exists msg, fst run = Raise (MissingTemplateDirException msg))
     <-> fst (OS.isdir "notadir" Sample.start) = Return false).
Proof.
  intros run [_ H].
  destruct (H eq_refl) as [msg Hmsg].
  vm_compute in Hmsg. discriminate Hmsg.
Qed.

(** C6, as the code has it: a run of [generate_html] that succeeds returns
    [None]; the number of files written is not returned. *)
Theorem generate_html_returns_none
    (w : world) (templates_dir : string) (macro_dirs : list string)
    (output_dir : string) (context : option (gmap string pyobj))
    (unexpanded_templates : list string) (expand quiet : bool) (st : state)
    (v : pyobj) :
  fst (generate_html w templates_dir macro_dirs output_dir context
         unexpanded_templates expand quiet st) = Return v ->
  v = PNone.
Proof. apply generate_html_none. Qed.

Lemma generate_html_returns_none_witness :
  exists v : pyobj,
    fst (generate_html Sample.plain "templates" [] "out" None [] true true
           Sample.start) = Return v
    /\ v = PNone.
Proof.
  exists PNone.
  assert (H : fst (generate_html Sample.plain "templates" [] "out" None []
                     true true Sample.start) = Return PNone)
    by (vm_compute; reflexivity).
  split; [exact H|].
  exact (generate_html_returns_none Sample.plain "templates" [] "out" None []
           true true Sample.start PNone H).
Defined.

(** C6 as stated fails: this run writes three files and returns [None]. *)
Lemma generate_html_returns_no_count :
  let run := generate_html Sample.plain "templates" [] "out" None [] true true
               Sample.start in
  Spec.files_written (trace (snd run)) = 3
  /\ fst run = Return PNone
  /\ fst run <> Return (PInt 3).
Proof.
  vm_compute. repeat split; discriminate.
Qed.

(** * Where the walker writes *)

Module TraceFacts.

Lemma written_paths_snoc t e :
  Spec.written_paths (t ++ [e]) =
  (Spec.written_paths t
   ++ match e with WriteText p _ => [p] | _ => [] end)%list.
Proof.
  unfold Spec.written_paths. rewrite flat_map_app. simpl.
  now rewrite app_nil_r.
Qed.

Lemma silent_ret {A} (a : A) : Spec.silent (ret a).
Proof. intros st r st' H. inversion H; now subst. Qed.

Lemma silent_bind {A B} (m : M A) (k : A -> M B) :
  Spec.silent m -> (forall a, Spec.silent (k a)) -> Spec.silent (bind m k).
Proof.
  intros Hm Hk st r st' H.
  apply RunFacts.bind_inv in H as [(a & st1 & H1 & H2)|(e & H1 & _)].
  - apply Hm in H1 as [H1 H1']. apply Hk in H2 as [H2 H2']. split; congruence.
  - now apply Hm in H1.
Qed.

Lemma silent_emit e : Spec.is_write e = false -> Spec.silent (emit e).
Proof.
  intros He st r st' H. inversion H; subst. cbn [trace cwd].
  rewrite written_paths_snoc. destruct e; try discriminate;
    now rewrite app_nil_r.
Qed.

Lemma silent_when b (m : M unit) : Spec.silent m -> Spec.silent (when b m).
Proof. destruct b; [trivial|]. intros _. apply silent_ret. Qed.

Lemma silent_read_text path : Spec.silent (OS.read_text path).
Proof.
  intros st r st' H. unfold OS.read_text in H.
  destruct (OS.read st path); inversion H; now subst.
Qed.

Lemma silent_ignore w path : Spec.silent (_ignore w path).
Proof.
  unfold _ignore, OS.is_binary.
  apply silent_bind.
  - apply silent_bind; [apply silent_read_text|intros; apply silent_ret].
  - intros b.
    repeat match goal with |- Spec.silent (if ?c then _ else _) => destruct c end;
      apply silent_ret.
Qed.

Lemma store_written path data ev st r st' :
  OS.store path data ev st = (r, st') ->
  cwd st' = cwd st /\ (st' = st \/ trace st' = (trace st ++ [ev])%list).
Proof.
  unfold OS.store. intros H.
  repeat match type of H with
         | context [match ?x with _ => _ end] => destruct x
         | context [if ?x then _ else _] => destruct x
         end;
    inversion H; subst; auto.
Qed.

(** [generate_html_file] writes nothing, or one file where
    [get_output_filename] says, asked with the function's own [expand]. *)
Lemma generate_html_file_written w tp out env ctx fu minify expand st r st' :
  generate_html_file w tp out env ctx fu minify expand st = (r, st') ->
  cwd st' = cwd st
  /\ (Spec.written_paths (trace st') = Spec.written_paths (trace st)
      \/ exists o,
           get_output_filename tp out fu expand = Some o
           /\ Spec.written_paths (trace st')
              = (Spec.written_paths (trace st) ++ [o])%list).
Proof.
  unfold generate_html_file.
  destruct (Str.startswith tp "base").
  { intros H. inversion H; subst. auto. }
  unfold bind at 1, OS.render.
  destruct (jinja_render w (OS.read st) env _ ctx) as [html|].
  2:{ intros H. inversion H; subst. auto. }
  destruct (get_output_filename tp out fu expand) as [o|].
  2:{ intros H. inversion H; subst. cbn [trace cwd].
      rewrite written_paths_snoc, app_nil_r. auto. }
  destruct (Str.truthy o).
  2:{ intros H. inversion H; subst. cbn [trace cwd].
      rewrite written_paths_snoc, app_nil_r. auto. }
  unfold bind at 1, OS.make_sure_path_exists.
  match goal with
  | |- bind _ _ ?s = _ -> _ => set (st2 := s)
  end.
  assert (H2 : Spec.written_paths (trace st2) = Spec.written_paths (trace st)
               /\ cwd st2 = cwd st).
  { subst st2. cbn [trace cwd]. now rewrite !written_paths_snoc, !app_nil_r. }
  destruct H2 as [Hp2 Hc2]. clearbody st2.
  intros H.
  assert (Hst : exists r3, OS.write_text o
                  (if minify then minify_html html else html) st2 = (r3, st')).
  { apply RunFacts.bind_inv in H as [(a & st3 & Hw & H)|(e & Hw & _)].
    - unfold ret in H. inversion H; subst. eexists. exact Hw.
    - eexists. exact Hw. }
  destruct Hst as [r3 Hst]. unfold OS.write_text in Hst.
  apply store_written in Hst as [Hc3 [-> | Ht3]].
  - split; [assumption|]. now left.
  - split; [congruence|]. right. exists o. split; [reflexivity|].
    now rewrite Ht3, written_paths_snoc, Hp2.
Qed.

(** A round of the loop of [generate_html] writes nothing, or one file where
    [get_output_filename] says when it is asked with [expand] on, whatever
    the [expand] of the caller is. *)
Lemma generate_html_step_written w td out env ctx unexp expand quiet root f st :
  let st' := snd (generate_html_step w td out env ctx unexp expand quiet
                    root f st) in
  Spec.written_paths (trace st') = Spec.written_paths (trace st)
  \/ exists tp o,
       Path.relpath (cwd st) (Path.join root [f]) td = Some tp
       /\ get_output_filename tp out (existsb (String.eqb tp) unexp) true
          = Some o
       /\ Spec.written_paths (trace st')
          = (Spec.written_paths (trace st) ++ [o])%list.
Proof.
  intros st'. subst st'.
  destruct (generate_html_step w td out env ctx unexp expand quiet root f st)
    as [r st'] eqn:H.
  cbn [snd]. unfold generate_html_step in H.
  unfold bind at 1, OS.relpath in H.
  destruct (Path.relpath (cwd st) (Path.join root [f]) td) as [tp|] eqn:Hrel.
  2:{ inversion H; subst. now left. }
  unfold bind at 1, OS.debug, emit in H.
  match type of H with
  | bind _ _ ?s = _ => set (st1 := s) in H
  end.
  assert (H1 : Spec.written_paths (trace st1) = Spec.written_paths (trace st)
               /\ cwd st1 = cwd st).
  { subst st1. cbn [trace cwd]. now rewrite written_paths_snoc, app_nil_r. }
  destruct H1 as [Hp1 Hc1].
  apply RunFacts.bind_inv in H as [(ig & st2 & Hig & H)|(e & Hig & _)].
  2:{ apply silent_ignore in Hig as [Hp2 _]. left. congruence. }
  apply silent_ignore in Hig as [Hp2 Hc2].
  assert (Hprint : forall l, Spec.silent (when (negb quiet) (OS.print l))).
  { intros l. now apply silent_when, silent_emit. }
  destruct ig.
  { apply Hprint in H as [Hp3 _]. left. congruence. }
  apply RunFacts.bind_inv in H as [([] & st3 & Hpr & H)|(e & Hpr & _)].
  2:{ apply Hprint in Hpr as [Hp3 _]. left. congruence. }
  apply Hprint in Hpr as [Hp3 Hc3].
  apply RunFacts.bind_inv in H as [(v & st4 & Hfile & H)|(e & Hfile & _)].
  - inversion H; subst st4.
    apply generate_html_file_written in Hfile as [_ [Hw|(o & Ho & Hw)]].
    + left. congruence.
    + right. exists tp, o. repeat split; [assumption|]. congruence.
  - apply generate_html_file_written in Hfile as [_ [Hw|(o & Ho & Hw)]].
    + left. congruence.
    + right. exists tp, o. repeat split; [assumption|]. congruence.
Qed.

End TraceFacts.

(** C1 does not hold of the code.  [generate_html] hands its [expand] to
    [generate_html_file] in the position of [minify], so a round of the loop
    writes nothing, or one file where [get_output_filename] says when asked
    with [expand] on, whatever the caller's [expand] is.  With [expand] off
    the resolver puts "about.html" at "out/about.html", which is what the
    progress line announces, and the file is written to
    "out/about/index.html". *)
Theorem generate_html_expand_off_expands :
  (forall (w : world) (templates_dir output_dir : string) (env : list string)
          (context : gmap string pyobj) (unexpanded_templates : list string)
          (expand quiet : bool) (root f : string) (st : state),
      let st' := snd (generate_html_step w templates_dir output_dir env context
                        unexpanded_templates expand quiet root f st) in
      Spec.written_paths (trace st') = Spec.written_paths (trace st)
      \/ exists tp o,
           Path.relpath (cwd st) (Path.join root [f]) templates_dir = Some tp
           /\ get_output_filename tp output_dir
                (existsb (String.eqb tp) unexpanded_templates) true = Some o
           /\ Spec.written_paths (trace st')
              = (Spec.written_paths (trace st) ++ [o])%list)
  /\ let run := generate_html Sample.plain "templates" [] "out" None [] false
                  false Sample.start in
     fst run = Return PNone
     /\ get_output_filename "about.html" "out" false false
        = Some "out/about.html"
     /\ In (Print "Copying about.html to out/about.html") (trace (snd run))
     /\ Spec.written_paths (trace (snd run))
        = ["out/about/index.html"; "out/index.html"; "out/art/page/index.html"]
     /\ OS.read (snd run) "out/about.html" = None
     /\ OS.read (snd run) "out/about/index.html" = Some "<p>About</p>".
Proof.
  split.
  - intros. apply TraceFacts.generate_html_step_written.
  - vm_compute. repeat split; auto 10.
Qed.

(** * [generate_context] *)

Section GenerateContext.

Variable w : world.
Variable context_dir : string.
Variable st : state.

Lemma read_same_files st' path :
  Spec.same_files st st' -> OS.read st' path = OS.read st path.
Proof.
  intros [Hroot Hcwd].
  unfold OS.read, OS.lookup, OS.locate, OS.components, OS.absolute.
  now rewrite Hroot, Hcwd.
Qed.

Lemma contributes_key fn k v :
  Spec.contributes w st context_dir fn k v -> k = fst (Path.splitext fn).
Proof. now intros [<- _]. Qed.

Lemma contributes_functional fn k v v' :
  Spec.contributes w st context_dir fn k v ->
  Spec.contributes w st context_dir fn k v' -> v = v'.
Proof.
  intros (_ & _ & t & Ht & H) (_ & _ & t' & Ht' & H').
  rewrite Ht in Ht'. inversion Ht'; subst t'.
  destruct H as [[He H]|[He H]], H' as [[He' H']|[He' H']];
    try congruence.
  - destruct He' as [He'|He']; rewrite He in He'; discriminate.
  - destruct He as [He|He]; rewrite He' in He; discriminate.
Qed.

(** One round of the loop either records the entry's value under the
    entry's stem, or leaves the dictionary alone because the entry has
    nothing to contribute. *)
Lemma generate_context_step_run st1 c fn c' st2 :
  Spec.same_files st st1 ->
  generate_context_step w context_dir c fn st1 = (Return c', st2) ->
  Spec.same_files st st2
  /\ ((exists v, Spec.contributes w st context_dir fn (fst (Path.splitext fn)) v
                 /\ c' = <[fst (Path.splitext fn) := v]> c)
      \/ ((forall k v, ~ Spec.contributes w st context_dir fn k v) /\ c' = c)).
Proof.
  intros Hsame. pose proof Hsame as [Hroot Hcwd].
  unfold generate_context_step.
  destruct (Path.splitext fn) as [name ext] eqn:Hsplit. cbn [fst snd].
  assert (Hno : forall o, (forall k v, Spec.contributes w st context_dir fn k v -> v = o) ->
                          is_not_none o = false ->
                          forall k v, ~ Spec.contributes w st context_dir fn k v).
  { intros o Ho Hnone k v Hc. pose proof Hc as (_ & Hv & _).
    apply Ho in Hc. subst v. destruct o; [congruence|discriminate..]. }
  destruct (String.eqb_spec ext ".json") as [Hj|Hj].
  { unfold bind, OS.read_text, ret, raise, OS.print, emit.
    rewrite (read_same_files st1 _ Hsame).
    destruct (OS.read st (Path.join context_dir [fn])) as [text|] eqn:Hread;
      [|discriminate].
    destruct (json_loads w text) as [o|] eqn:Hparse; [|discriminate].
    destruct (is_not_none o) eqn:Ho; intros H; inversion H; subst c' st2; clear H.
    - split; [now split|]. left. exists o. split; [|reflexivity].
      split; [now rewrite Hsplit|]. split; [now destruct o|].
      exists text. split; [assumption|]. left. now rewrite Hsplit.
    - split; [now split|]. right. split; [|reflexivity].
      apply (Hno o); [|assumption].
      intros k v (_ & _ & t & Ht & Hc). rewrite Hsplit in Hc. cbn [snd] in Hc.
      rewrite Hread in Ht. inversion Ht; subst t.
      destruct Hc as [[_ Hc]|[[He|He] _]]; [congruence| |];
        rewrite Hj in He; discriminate. }
  destruct (String.eqb ext ".yml" || String.eqb ext ".yaml") eqn:Hy.
  { unfold bind, OS.read_text, ret, raise, OS.print, emit.
    rewrite (read_same_files st1 _ Hsame).
    destruct (OS.read st (Path.join context_dir [fn])) as [text|] eqn:Hread;
      [|discriminate].
    destruct (yaml_safe_load w text) as [o|] eqn:Hparse; [|discriminate].
    assert (Hext : ext = ".yml" \/ ext = ".yaml").
    { apply orb_true_iff in Hy as [Hy|Hy]; apply String.eqb_eq in Hy; auto. }
    destruct (is_not_none o) eqn:Ho; intros H; inversion H; subst c' st2; clear H.
    - split; [now split|]. left. exists o. split; [|reflexivity].
      split; [now rewrite Hsplit|]. split; [now destruct o|].
      exists text. split; [assumption|]. right. now rewrite Hsplit.
    - split; [now split|]. right. split; [|reflexivity].
      apply (Hno o); [|assumption].
      intros k v (_ & _ & t & Ht & Hc). rewrite Hsplit in Hc. cbn [snd] in Hc.
      rewrite Hread in Ht. inversion Ht; subst t.
      destruct Hc as [[He _]|[_ Hc]]; congruence. }
  unfold bind, ret. cbn [is_not_none]. intros H; inversion H; subst c' st2; clear H.
  split; [now split|]. right. split; [|reflexivity].
  intros k v (_ & _ & t & _ & Hc). rewrite Hsplit in Hc. cbn [snd] in Hc.
  apply orb_false_iff in Hy as [Hy1 Hy2].
  apply String.eqb_neq in Hy1, Hy2.
  destruct Hc as [[He _]|[[He|He] _]]; congruence.
Qed.

(** The dictionary after the loop: a key holds what the last entry that
    contributes to it puts there, or what it held before when no entry
    does. *)
Lemma generate_context_loop_run all_files : forall st1 c c' st2,
  Spec.same_files st st1 ->
  generate_context_loop w context_dir all_files c st1 = (Return c', st2) ->
  Spec.same_files st st2
  /\ forall k v,
       c' !! k = Some v <->
       (exists before fn after,
           all_files = (before ++ fn :: after)%list
           /\ Spec.contributes w st context_dir fn k v
           /\ forall fn' v', In fn' after ->
                             ~ Spec.contributes w st context_dir fn' k v')
       \/ (c !! k = Some v
           /\ forall fn' v', In fn' all_files ->
                             ~ Spec.contributes w st context_dir fn' k v').
Proof.
  induction all_files as [|fn rest IH]; intros st1 c c' st2 Hsame Hrun.
  - inversion Hrun; subst. split; [assumption|]. intros k v. split.
    + intros H. right. split; [assumption|]. intros ? ? [].
    + intros [(before & fn & after & E & _)|[H _]]; [|assumption].
      now destruct before.
  - cbn [generate_context_loop] in Hrun.
    apply RunFacts.bind_inv in Hrun as [(c1 & st1' & Hstep & Hrest)|(e & _ & E)];
      [|discriminate].
    apply (generate_context_step_run _ _ _ _ _ Hsame) in Hstep as [Hsame' Hstep].
    apply (IH _ _ _ _ Hsame') in Hrest as [Hsame'' Hrest].
    split; [assumption|]. intros k v. rewrite Hrest. clear Hrest. split.
    + intros [(before & fn' & after & -> & Hc & Hlater)|[Hk Hnone]].
      * left. now exists (fn :: before), fn', after.
      * destruct Hstep as [(v0 & Hc0 & ->)|[Hno ->]].
        -- destruct (decide (fst (Path.splitext fn) = k)) as [<-|Hne].
           ++ rewrite lookup_insert_eq in Hk. inversion Hk; subst v0.
              left. now exists [], fn, rest.
           ++ rewrite lookup_insert_ne in Hk by assumption.
              right. split; [assumption|]. intros fn' v' [<-|Hin].
              ** intros Hc. apply contributes_key in Hc. congruence.
              ** now apply Hnone.
        -- right. split; [assumption|]. intros fn' v' [<-|Hin]; [apply Hno|].
           now apply Hnone.
    + intros [(before & fn' & after & E & Hc & Hlater)|[Hk Hnone]].
      * destruct before as [|b before]; inversion E; subst; clear E.
        -- right. split; [|assumption].
           pose proof (contributes_key _ _ _ Hc) as Ek. subst k.
           destruct Hstep as [(v0 & Hc0 & ->)|[Hno ->]].
           ++ rewrite (contributes_functional _ _ _ _ Hc Hc0).
              apply lookup_insert_eq.
           ++ now apply Hno in Hc.
        -- left. now exists before, fn', after.
      * right. split; [|intros fn' v' Hin; apply Hnone; now right].
        destruct Hstep as [(v0 & Hc0 & ->)|[Hno ->]]; [|assumption].
        rewrite lookup_insert_ne; [assumption|].
        intros <-. apply (Hnone fn v0); [now left|assumption].
Qed.

Lemma generate_context_run entries ctx st' :
  OS.lookup st context_dir = Some (Dir entries) ->
  generate_context w context_dir st = (Return ctx, st') ->
  (forall k v,
      ctx !! k = Some v <->
      exists before fn after,
        map fst entries = (before ++ fn :: after)%list
        /\ Spec.contributes w st context_dir fn k v
        /\ forall fn' v', In fn' after ->
                          ~ Spec.contributes w st context_dir fn' k v')
  /\ root st' = root st.
Proof.
  intros Hdir. unfold generate_context, bind at 1, OS.listdir. rewrite Hdir.
  intros Hrun.
  apply generate_context_loop_run in Hrun as [[Hroot _] Hrun]; [|now split].
  split; [|assumption]. intros k v. rewrite Hrun. split.
  - intros [H|[H _]]; [assumption|]. now rewrite lookup_empty in H.
  - now left.
Qed.

Lemma generate_context_step_skip c fn st0 :
  snd (Path.splitext fn) <> ".json" ->
  snd (Path.splitext fn) <> ".yml" ->
  snd (Path.splitext fn) <> ".yaml" ->
  generate_context_step w context_dir c fn st0 = (Return c, st0).
Proof.
  unfold generate_context_step.
  destruct (Path.splitext fn) as [name ext]. cbn [snd].
  intros Hj Hy1 Hy2. apply String.eqb_neq in Hj, Hy1, Hy2.
  now rewrite Hj, Hy1, Hy2.
Qed.

End GenerateContext.

(** C8, as the code has it: the dictionary [generate_context] returns has,
    under a key, the parsed content of the last direct entry of the
    directory (in listing order) whose name without extension is the key,
    whose extension is ".json", ".yml" or ".yaml" and whose parsed content is
    not [None]; it has no other key.  An entry with another extension leaves
    the dictionary and the state as they are, and nothing below the
    directory's own entries is read; the file system is not changed. *)
Theorem generate_context_keys
    (w : world) (context_dir : string) (st : state)
    (entries : list (string * node)) (ctx : gmap string pyobj) (st' : state) :
  OS.lookup st context_dir = Some (Dir entries) ->
  generate_context w context_dir st = (Return ctx, st') ->
  (forall k v,
      ctx !! k = Some v <->
      exists before fn after,
        map fst entries = (before ++ fn :: after)%list
        /\ Spec.contributes w st context_dir fn k v
        /\ forall fn' v', In fn' after ->
                          ~ Spec.contributes w st context_dir fn' k v')
  /\ (forall c fn st0,
        snd (Path.splitext fn) <> ".json" ->
        snd (Path.splitext fn) <> ".yml" ->
        snd (Path.splitext fn) <> ".yaml" ->
        generate_context_step w context_dir c fn st0 = (Return c, st0))
  /\ root st' = root st.
Proof.
  intros Hdir Hrun.
  destruct (generate_context_run w context_dir st entries ctx st' Hdir Hrun)
    as [Hkeys Hroot].
  split; [exact Hkeys|]. split; [|exact Hroot].
  intros c fn st0. apply generate_context_step_skip.
Qed.

Lemma generate_context_keys_witness :
  exists ctx st',
    OS.lookup Sample.start "context" = Some (Dir Sample.context_entries)
    /\ generate_context Sample.plain "context" Sample.start = (Return ctx, st')
    /\ ctx !! "numbers" = Some (PList [PInt 1; PInt 2; PInt 3; PInt 4]).
Proof.
  destruct (generate_context Sample.plain "context" Sample.start)
    as [r st'] eqn:Hrun.
  assert (Hr : exists ctx, r = Return ctx).
  { vm_compute in Hrun. inversion Hrun. eexists. reflexivity. }
  destruct Hr as [ctx ->].
  exists ctx, st'. split; [reflexivity|]. split; [reflexivity|].
  apply (generate_context_keys Sample.plain "context" Sample.start
           Sample.context_entries ctx st' eq_refl Hrun).
  exists [], "numbers.yml", ["empty.json"; "notes.txt"; "sub"].
  split; [reflexivity|]. split.
  - split; [reflexivity|]. split; [discriminate|].
    exists "[1, 2, 3, 4]". split; [reflexivity|]. right. split; [now left|reflexivity].
  - intros fn' v' Hin [Hkey _].
    destruct Hin as [<-|[<-|[<-|[]]]]; discriminate Hkey.
Defined.

(** C8 as stated fails: "empty.json" is a direct entry with the extension
    ".json", its content parses (to [None]), and its stem is not a key. *)
Lemma generate_context_drops_null :
  let run := generate_context Sample.plain "context" Sample.start in
  In "empty.json" (map fst Sample.context_entries)
  /\ Path.splitext "empty.json" = ("empty", ".json")
  /\ OS.read Sample.start "context/empty.json" = Some "null"
  /\ json_loads Sample.plain "null" = Some PNone
  /\ exists ctx, fst run = Return ctx /\ ctx !! "empty" = None.
Proof.
  split; [right; now left|]. do 3 (split; [reflexivity|]).
  eexists. split; [vm_compute; reflexivity|]. vm_compute. reflexivity.
Qed.

(** * The file system *)

Module FSFacts.

Lemma assoc_set_entry k v l : FS.assoc k (FS.set_entry k v l) = Some v.
Proof.
  induction l as [|[k' v'] l IH]; simpl.
  - now rewrite String.eqb_refl.
  - destruct (String.eqb k k') eqn:E; simpl; rewrite ?String.eqb_refl, ?E; auto.
Qed.

Lemma put_below es x y rest new :
  FS.put (Dir es) (x :: y :: rest) new =
  match FS.assoc x es with
  | Some c => match FS.put c (y :: rest) new with
              | Some c' => Some (Dir (FS.set_entry x c' es))
              | None => None
              end
  | None => None
  end.
Proof. reflexivity. Qed.

(** What [put] stores is what [get] finds. *)
Lemma get_put names : forall n new n',
  FS.put n names new = Some n' -> FS.get n' names = Some new.
Proof.
  induction names as [|x rest IH]; intros n new n' H.
  - simpl in H. now inversion H.
  - destruct n as [d|es|]; try discriminate.
    destruct rest as [|y rest'].
    + simpl in H. inversion H; subst. simpl. now rewrite assoc_set_entry.
    + rewrite put_below in H.
      destruct (FS.assoc x es) as [c|]; [|discriminate].
      destruct (FS.put c (y :: rest') new) as [c'|] eqn:Hput; [|discriminate].
      inversion H; subst. cbn [FS.get]. rewrite assoc_set_entry.
      now apply (IH c).
Qed.

(** [put] succeeds where something is already. *)
Lemma put_defined names : forall n old new,
  FS.get n names = Some old -> exists n', FS.put n names new = Some n'.
Proof.
  induction names as [|x rest IH]; intros n old new H.
  - now exists new.
  - destruct n as [d|es|]; try discriminate.
    cbn [FS.get] in H. destruct (FS.assoc x es) as [c|] eqn:Hx; [|discriminate].
    destruct rest as [|y rest'].
    + eexists. reflexivity.
    + rewrite put_below, Hx.
      destruct (IH c old new H) as [c' ->]. eexists. reflexivity.
Qed.

Lemma get_app a : forall n b,
  FS.get n (a ++ b) =
  match FS.get n a with Some m => FS.get m b | None => None end.
Proof.
  induction a as [|x a IH]; intros n b; [reflexivity|].
  destruct n as [d|es|]; try reflexivity.
  cbn [app FS.get]. destruct (FS.assoc x es); [apply IH|reflexivity].
Qed.

(** Above whatever exists there is a directory. *)
Lemma get_parent root names x n :
  FS.get root (names ++ [x]) = Some n ->
  exists es, FS.get root names = Some (Dir es).
Proof.
  rewrite get_app. destruct (FS.get root names) as [[d|es|]|]; try discriminate.
  intros _. now exists es.
Qed.

Lemma canon_app root a : forall stack b,
  FS.canon root stack (a ++ b) =
  match FS.canon root stack a with
  | Some s => FS.canon root s b
  | None => None
  end.
Proof.
  induction a as [|c a IH]; intros stack b; [reflexivity|].
  cbn [app FS.canon].
  destruct (FS.get root stack) as [[d|es|]|]; try reflexivity.
  destruct (String.eqb c "" || String.eqb c "."); [apply IH|].
  destruct (String.eqb c ".."); [apply IH|].
  destruct (FS.assoc c es); [apply IH|reflexivity].
Qed.

Lemma split_nonempty s c : Str.split s c <> [].
Proof.
  destruct s as [|x s]; [discriminate|]. simpl.
  destruct (Ascii.eqb x c); [discriminate|].
  destruct (Str.split s c); discriminate.
Qed.

(** A path that resolves to a regular file ends in the file's name, below
    the resolution of what precedes it. *)
Lemma canon_file root comps names old :
  comps <> [] ->
  FS.canon root [] comps = Some names ->
  FS.get root names = Some (File old) ->
  exists pre name parent,
    comps = (pre ++ [name])%list
    /\ FS.canon root [] pre = Some parent
    /\ names = (parent ++ [name])%list
    /\ String.eqb name "" = false
    /\ String.eqb name "." = false
    /\ String.eqb name ".." = false.
Proof.
  intros Hne Hcanon Hget.
  destruct comps as [|name pre _] using rev_ind; [congruence|].
  rewrite canon_app in Hcanon.
  destruct (FS.canon root [] pre) as [parent|] eqn:Hpre; [|discriminate].
  cbn [FS.canon] in Hcanon.
  destruct (FS.get root parent) as [[d|es|]|] eqn:Hparent; try discriminate.
  destruct (String.eqb name "") eqn:E1.
  { cbn [orb] in Hcanon. inversion Hcanon; subst. congruence. }
  destruct (String.eqb name ".") eqn:E2.
  { cbn [orb] in Hcanon. inversion Hcanon; subst. congruence. }
  cbn [orb] in Hcanon.
  destruct (String.eqb name "..") eqn:E3.
  { inversion Hcanon; subst.
    destruct parent as [|y parent0 _] using rev_ind.
    - simpl in Hget, Hparent. congruence.
    - rewrite removelast_last in Hget.
      apply get_parent in Hparent as [es' Hparent]. congruence. }
  destruct (FS.assoc name es); [|discriminate].
  inversion Hcanon; subst.
  now exists pre, name, parent.
Qed.

Lemma lookup_same_files st st' path :
  Spec.same_files st st' -> OS.lookup st' path = OS.lookup st path.
Proof.
  intros [Hroot Hcwd].
  unfold OS.lookup, OS.locate, OS.components, OS.absolute.
  now rewrite Hroot, Hcwd.
Qed.

Lemma locate_same_files st st' path :
  Spec.same_files st st' -> OS.locate st' path = OS.locate st path.
Proof.
  intros [Hroot Hcwd].
  unfold OS.locate, OS.components, OS.absolute.
  now rewrite Hroot, Hcwd.
Qed.

(** A progress line changes the trace only. *)
Lemma when_print b line st :
  exists st', when b (OS.print line) st = (Return tt, st')
              /\ Spec.same_files st st'.
Proof.
  destruct b; simpl.
  - eexists. split; [reflexivity|]. now split.
  - exists st. split; [reflexivity|]. now split.
Qed.

Lemma for_each_app {A} (body : A -> M unit) l1 : forall l2 st,
  for_each (l1 ++ l2) body st =
  match for_each l1 body st with
  | (Return _, st') => for_each l2 body st'
  | (Raise e, st') => (Raise e, st')
  end.
Proof.
  induction l1 as [|x l1 IH]; intros l2 st; [reflexivity|].
  cbn [app for_each]. unfold bind.
  destruct (body x st) as [[[]|e] st1]; [apply IH|reflexivity].
Qed.

(** [shutil.copytree] refuses a destination that exists. *)
Lemma copytree_exists src dst st es n :
  OS.lookup st src = Some (Dir es) ->
  OS.lookup st dst = Some n ->
  OS.copytree src dst st = (Raise (FileExistsError dst), st).
Proof. unfold OS.copytree. now intros -> ->. Qed.

(** [shutil.copyfile] replaces the data of a regular file that is at the
    destination. *)
Lemma copyfile_overwrites src dst st data old names :
  OS.lookup st src = Some (File data) ->
  OS.locate st dst = Some names ->
  FS.get (root st) names = Some (File old) ->
  OS.locate st src <> Some names ->
  exists r,
    OS.copyfile src dst st
    = (Return tt,
       {| root := r; cwd := cwd st; trace := trace st ++ [CopyFile src dst] |})
    /\ FS.get r names = Some (File data).
Proof.
  intros Hsrc Hdst Hold Hdiff.
  assert (Hread : OS.read st src = Some data) by (unfold OS.read; now rewrite Hsrc).
  assert (Hstore : exists r,
             OS.store dst data (CopyFile src dst) st
             = (Return tt,
                {| root := r; cwd := cwd st;
                   trace := trace st ++ [CopyFile src dst] |})
             /\ FS.get r names = Some (File data)).
  { unfold OS.locate in Hdst.
    destruct (Str.truthy dst) eqn:Htruthy; [|discriminate].
    destruct (canon_file _ _ _ _ (split_nonempty _ _) Hdst Hold)
      as (pre & name & parent & Hcomps & Hpre & -> & E1 & E2 & E3).
    destruct (put_defined _ _ _ (File data) Hold) as [r Hput].
    exists r. split; [|now apply get_put in Hput].
    change (OS.components st dst = (pre ++ [name])%list) in Hcomps.
    unfold OS.store. cbv zeta.
    rewrite Hcomps, last_snoc, removelast_last, Htruthy.
    cbn [negb orb]. rewrite E1, E2, E3, Hpre, Hold, Hput. reflexivity. }
  destruct Hstore as (r & Hstore & Hget). exists r. split; [|assumption].
  unfold OS.copyfile. rewrite Hdst.
  destruct (OS.locate st src) as [a|] eqn:Ha.
  - rewrite bool_decide_eq_false_2 by congruence.
    unfold bind, OS.read_text. now rewrite Hread.
  - unfold bind, OS.read_text. now rewrite Hread.
Qed.

End FSFacts.

(** * [copy_assets] *)

Section CopyAssets.

Variables (assets_dir output_dir : string) (quiet : bool) (item : string).

Let src : string := Path.join assets_dir [item].
Let dst : string := Path.join output_dir [item].

Lemma copy_assets_step_directory st es n :
  OS.lookup st src = Some (Dir es) ->
  item <> "scss" -> item <> "less" ->
  OS.lookup st dst = Some n ->
  exists st',
    copy_assets_step assets_dir output_dir quiet item st
    = (Raise (FileExistsError dst), st')
    /\ Spec.same_files st st'.
Proof.
  intros Hsrc Hscss Hless Hdst.
  apply String.eqb_neq in Hscss, Hless.
  unfold copy_assets_step. fold src dst.
  unfold bind at 1, OS.isdir. rewrite Hsrc, Hscss, Hless. cbn [andb negb when].
  match goal with
  | |- context [when (negb quiet) (OS.print ?l)] =>
      destruct (FSFacts.when_print (negb quiet) l st) as (st' & Hprint & Hsame)
  end.
  exists st'. split; [|assumption].
  unfold bind at 1. unfold bind at 1. rewrite Hprint.
  erewrite FSFacts.copytree_exists; [reflexivity| |].
  - rewrite (FSFacts.lookup_same_files st st' src Hsame). exact Hsrc.
  - rewrite (FSFacts.lookup_same_files st st' dst Hsame). exact Hdst.
Qed.

Lemma copy_assets_step_file st data old names :
  OS.lookup st src = Some (File data) ->
  OS.locate st dst = Some names ->
  FS.get (root st) names = Some (File old) ->
  OS.locate st src <> Some names ->
  exists st',
    copy_assets_step assets_dir output_dir quiet item st = (Return tt, st')
    /\ FS.get (root st') names = Some (File data)
    /\ In (CopyFile src dst) (trace st').
Proof.
  intros Hsrc Hdst Hold Hdiff.
  unfold copy_assets_step. fold src dst.
  unfold bind at 1, OS.isdir. rewrite Hsrc. cbn [andb when].
  unfold bind at 1, ret. unfold bind at 1, OS.isfile. rewrite Hsrc. cbn [when].
  match goal with
  | |- context [when (negb quiet) (OS.print ?l)] =>
      destruct (FSFacts.when_print (negb quiet) l st) as (st' & Hprint & Hsame)
  end.
  unfold bind at 1. rewrite Hprint.
  pose proof Hsame as [Hroot Hcwd].
  destruct (FSFacts.copyfile_overwrites src dst st' data old names)
    as (r & Hcopy & Hget).
  - now rewrite (FSFacts.lookup_same_files st st' src Hsame).
  - now rewrite (FSFacts.locate_same_files st st' dst Hsame).
  - now rewrite Hroot.
  - now rewrite (FSFacts.locate_same_files st st' src Hsame).
  - eexists. split; [exact Hcopy|]. split; [exact Hget|].
    cbn [trace]. apply in_or_app. right. now left.
Qed.

Lemma copy_assets_step_other st :
  OS.lookup st src = Some Special \/ OS.lookup st src = None ->
  copy_assets_step assets_dir output_dir quiet item st = (Return tt, st).
Proof.
  intros Hsrc. unfold copy_assets_step. fold src dst.
  unfold bind, OS.isdir, OS.isfile.
  destruct Hsrc as [H | H]; rewrite H; cbn [andb when]; unfold ret;
    now rewrite H.
Qed.

Lemma copy_assets_step_stylesheets st es :
  OS.lookup st src = Some (Dir es) ->
  item = "scss" \/ item = "less" ->
  copy_assets_step assets_dir output_dir quiet item st = (Return tt, st).
Proof.
  intros Hsrc Hitem. unfold copy_assets_step. fold src dst.
  unfold bind, OS.isdir, OS.isfile. rewrite Hsrc.
  assert (E : negb (String.eqb item "scss") && negb (String.eqb item "less")
              = false) by (destruct Hitem as [-> | ->]; reflexivity).
  cbn [andb]. rewrite E. cbn [when]. unfold ret. now rewrite Hsrc.
Qed.

(** The failure of one round is the failure of [copy_assets]. *)
Lemma copy_assets_raises st entries before after st1 e st2 :
  OS.lookup st assets_dir = Some (Dir entries) ->
  map fst entries = (before ++ item :: after)%list ->
  for_each before (copy_assets_step assets_dir output_dir quiet) st
  = (Return tt, st1) ->
  copy_assets_step assets_dir output_dir quiet item st1 = (Raise e, st2) ->
  copy_assets assets_dir output_dir quiet st = (Raise e, st2).
Proof.
  intros Hdir Hlist Hbefore Hstep.
  unfold copy_assets, bind at 1, OS.listdir. rewrite Hdir, Hlist.
  rewrite FSFacts.for_each_app, Hbefore.
  cbn [for_each]. unfold bind at 1. now rewrite Hstep.
Qed.

End CopyAssets.

(** C9: in a round of [copy_assets], a subdirectory other than "scss" and
    "less" whose destination exists makes the round, and with it
    [copy_assets], fail with the error of [shutil.copytree], nothing being
    copied; a regular file whose destination is another regular file is
    copied over it without error; an entry that is neither a directory nor a
    regular file is passed over, as are "scss" and "less". *)
Theorem copy_assets_step_cases
    (assets_dir output_dir : string) (quiet : bool) (item : string) (st : state) :
  let src := Path.join assets_dir [item] in
  let dst := Path.join output_dir [item] in
  let step := copy_assets_step assets_dir output_dir quiet in
  (forall es n,
      OS.lookup st src = Some (Dir es) -> item <> "scss" -> item <> "less" ->
      OS.lookup st dst = Some n ->
      fst (step item st) = Raise (FileExistsError dst)
      /\ root (snd (step item st)) = root st
      /\ forall st0 entries before after,
           OS.lookup st0 assets_dir = Some (Dir entries) ->
           map fst entries = (before ++ item :: after)%list ->
           for_each before step st0 = (Return tt, st) ->
           fst (copy_assets assets_dir output_dir quiet st0)
           = Raise (FileExistsError dst))
  /\ (forall data old names,
        OS.lookup st src = Some (File data) ->
        OS.locate st dst = Some names ->
        FS.get (root st) names = Some (File old) ->
        OS.locate st src <> Some names ->
        exists st',
          step item st = (Return tt, st')
          /\ FS.get (root st') names = Some (File data)
          /\ In (CopyFile src dst) (trace st'))
  /\ (OS.lookup st src = Some Special \/ OS.lookup st src = None ->
      step item st = (Return tt, st))
  /\ (forall es,
        OS.lookup st src = Some (Dir es) -> item = "scss" \/ item = "less" ->
        step item st = (Return tt, st)).
Proof.
  intros src dst step. unfold step. repeat split.
  - destruct (copy_assets_step_directory assets_dir output_dir quiet item
                st es n) as (st' & -> & _); auto.
  - destruct (copy_assets_step_directory assets_dir output_dir quiet item
                st es n) as (st' & -> & [Hroot _]); auto.
  - intros st0 entries before after Hdir Hlist Hbefore.
    destruct (copy_assets_step_directory assets_dir output_dir quiet item
                st es n) as (st' & Hstep & _); auto.
    now rewrite (copy_assets_raises assets_dir output_dir quiet item st0
                   entries before after st _ st' Hdir Hlist Hbefore Hstep).
  - intros data old names. apply copy_assets_step_file.
  - apply copy_assets_step_other.
  - intros es. apply copy_assets_step_stylesheets.
Qed.

Lemma copy_assets_step_cases_witness :
  fst (copy_assets "assets" "www" false Sample.start)
  = Raise (FileExistsError "www/css")
  /\ (exists st',
        copy_assets_step "assets" "www" false "robots.txt" Sample.start
        = (Return tt, st')
        /\ FS.get (root st') ["home"; "u"; "www"; "robots.txt"]
           = Some (File "User-agent: *"))
  /\ copy_assets_step "assets" "www" false "sock" Sample.start
     = (Return tt, Sample.start)
  /\ copy_assets_step "assets" "www" false "scss" Sample.start
     = (Return tt, Sample.start).
Proof.
  split; [|split; [|split]].
  - destruct (copy_assets_step_cases "assets" "www" false "css" Sample.start)
      as [Hdir _].
    pose proof (Hdir [("site.css", File "p {}")] (Dir []) eq_refl
                  ltac:(discriminate) ltac:(discriminate) eq_refl)
      as (_ & _ & Hall).
    apply (Hall Sample.start
             [("css", Dir [("site.css", File "p {}")]);
              ("scss", Dir [("site.scss", File "p {}")]);
              ("robots.txt", File "User-agent: *");
              ("sock", Special)]
             [] ["scss"; "robots.txt"; "sock"]); reflexivity.
  - destruct (copy_assets_step_cases "assets" "www" false "robots.txt"
                Sample.start) as (_ & Hfile & _).
    destruct (Hfile "User-agent: *" "old" ["home"; "u"; "www"; "robots.txt"]
                eq_refl eq_refl eq_refl ltac:(vm_compute; discriminate))
      as (st' & Hrun & Hget & _).
    now exists st'.
  - destruct (copy_assets_step_cases "assets" "www" false "sock" Sample.start)
      as (_ & _ & Hother & _).
    apply Hother. now left.
  - destruct (copy_assets_step_cases "assets" "www" false "scss" Sample.start)
      as (_ & _ & _ & Hstyle).
    apply (Hstyle [("site.scss", File "p {}")]); [reflexivity|now left].
Defined.

(** * More about the output file name *)

Module ResolverFacts.
Import StrFacts PathFacts.

Lemma prefix_app a b : String.prefix a (a +:+ b) = true.
Proof.
  induction a as [|x a IH]; [apply prefix_nil|].
  rewrite app_cons. cbn [String.prefix].
  destruct (ascii_dec x x); [exact IH|congruence].
Qed.

Lemma relative_clean b : Spec.occurs Path.sep b = false -> Str.startswith b "/" = false.
Proof.
  intros H. destruct (Str.startswith b "/") eqn:E; [|reflexivity].
  apply startswith_occurs in E. unfold Path.sep in H. congruence.
Qed.

(** What precedes a relative argument in the result of [join2] is empty or
    ends in a separator. *)
Lemma glued a : a +:+ Spec.glue a = "" \/ Str.endswith (a +:+ Spec.glue a) Path.sep = true.
Proof.
  unfold Spec.glue. destruct a as [|x a]; [now left|]. right.
  cbn [Str.truthy negb orb].
  destruct (Str.endswith (String x a) Path.sep) eqn:E.
  - now rewrite app_nil_r.
  - now rewrite endswith_app by discriminate.
Qed.

(** Every path is a head that is empty or ends in a separator, followed by a
    tail without separator: the two results of [cut]. *)
Lemma cut_parts p :
  exists h t,
    p = h +:+ t /\ Path.cut p = (h, t) /\ Spec.occurs Path.sep t = false
    /\ (h = "" \/ Str.endswith h Path.sep = true).
Proof.
  assert (H : exists h t, p = h +:+ t /\ Spec.occurs Path.sep t = false
                          /\ (h = "" \/ Str.endswith h Path.sep = true)).
  { induction p as [|x p (h & t & -> & Ht & Hh)].
    - exists "", "". auto.
    - destruct h as [|y h].
      + rewrite app_nil_l. destruct (Ascii.eqb x Path.sep) eqn:E.
        * apply Ascii.eqb_eq in E. subst x. exists "/", t. auto.
        * exists "", (String x t). repeat split; [|now left].
          simpl. now rewrite E.
      + exists (String x (String y h)), t. repeat split; [assumption|].
        right. rewrite endswith_cons by discriminate.
        destruct Hh as [Hh|Hh]; [discriminate|assumption]. }
  destruct H as (h & t & -> & Ht & Hh).
  exists h, t. repeat split; try assumption. now apply cut_app.
Qed.

(** [os.path.join] keeps the base name of its last argument. *)
Lemma basename_join2 a p : Path.basename (Path.join2 a p) = Path.basename p.
Proof.
  destruct (Str.startswith p "/") eqn:Hp.
  { now rewrite join2_absolute. }
  rewrite join2_relative by assumption.
  destruct (cut_parts p) as (h & t & -> & Hcut & Ht & Hh).
  rewrite (basename_cut _ _ _ Hcut).
  rewrite <- !app_assoc.
  apply (basename_cut _ ((a +:+ Spec.glue a) +:+ h) t).
  apply cut_app; [|assumption].
  destruct h as [|y h].
  - rewrite app_nil_r. apply glued.
  - right. rewrite endswith_app by discriminate.
    destruct Hh as [Hh|Hh]; [discriminate|assumption].
Qed.

Lemma join2_truthy a b : b <> "" -> Path.join2 a b <> "".
Proof.
  intros Hb. destruct (Str.startswith b "/") eqn:E.
  - now rewrite join2_absolute.
  - rewrite join2_relative by assumption. intros H.
    apply app_eq_nil in H as [_ H]. apply app_eq_nil in H. tauto.
Qed.

Lemma normpath_truthy p : Path.normpath p <> "".
Proof.
  unfold Path.normpath. destruct (String.eqb p ""); [discriminate|].
  destruct (Str.truthy _) eqn:E; [|discriminate].
  intros H. rewrite H in E. discriminate.
Qed.

Lemma join2_prefix a b : Str.startswith b "/" = false -> Str.startswith (Path.join2 a b) a = true.
Proof. intros Hb. rewrite join2_relative by assumption. apply prefix_app. Qed.

Lemma prefix_trans a b c :
  String.prefix a b = true -> String.prefix b c = true -> String.prefix a c = true.
Proof.
  revert b c. induction a as [|x a IH]; intros b c Hab Hbc; [apply prefix_nil|].
  destruct b as [|y b]; [discriminate|]. destruct c as [|z c]; [discriminate|].
  cbn [String.prefix] in *.
  destruct (ascii_dec x y) as [->|]; [|discriminate].
  destruct (ascii_dec y z) as [->|]; [|discriminate].
  now apply (IH b c).
Qed.

Lemma occurs_before c d s : Spec.occurs c s = false -> Spec.occurs c (Spec.before d s) = false.
Proof.
  induction s as [|x s IH]; [reflexivity|]. simpl.
  intros H. apply orb_false_elim in H as [Hx Hs].
  destruct (Ascii.eqb x d); [reflexivity|]. simpl. now rewrite Hx, IH.
Qed.

Lemma rstrip_keeps_first x s c :
  Ascii.eqb x c = false -> exists r, Str.rstrip (String x s) c = String x r.
Proof.
  intros Hx. simpl. destruct (Str.rstrip s c).
  - rewrite Hx. now eexists.
  - now eexists.
Qed.

(** The directory of a relative path is relative. *)
Lemma dirname_relative p :
  Str.startswith p "/" = false -> Str.startswith (Path.dirname p) "/" = false.
Proof.
  intros Hp.
  destruct (cut_parts p) as (h & t & -> & Hcut & Ht & Hh).
  rewrite (dirname_cut _ _ _ Hcut).
  destruct h as [|x h]; [reflexivity|].
  rewrite startswith_app in Hp by discriminate.
  assert (Hx : Ascii.eqb x "/" = false).
  { destruct (Ascii.eqb x "/") eqn:E; [|reflexivity].
    apply Ascii.eqb_eq in E. subst x.
    unfold Str.startswith in Hp. cbn [String.prefix] in Hp.
    destruct (ascii_dec "/" "/"); [|congruence].
    now rewrite prefix_nil in Hp. }
  destruct (rstrip_keeps_first x h Path.sep Hx) as [r ->].
  destruct (_ && _); [|assumption].
  unfold Str.startswith. cbn [String.prefix].
  destruct (ascii_dec "/" x) as [<-|]; [discriminate|reflexivity].
Qed.

End ResolverFacts.

Section ResolverExtras.

Variables (template_filepath output_dir : string).
Variables (force_unexpanded expand : bool).

Let p := Path.normpath template_filepath.

Lemma output_truthy o :
  get_output_filename template_filepath output_dir force_unexpanded expand = Some o ->
  Str.truthy o = true.
Proof.
  rewrite get_output_filename_unfold. fold p.
  destruct (Str.startswith (Path.basename p) "base"); [discriminate|].
  assert (Hne : forall s, s <> "" -> Str.truthy s = true) by (now intros []).
  destruct (_ || _ || _); intros H; inversion H; subst; apply Hne.
  - apply ResolverFacts.join2_truthy, ResolverFacts.normpath_truthy.
  - simpl. now apply ResolverFacts.join2_truthy.
Qed.

Lemma output_basename o :
  get_output_filename template_filepath output_dir force_unexpanded expand = Some o ->
  Path.basename o =
  if force_unexpanded || String.eqb (Path.basename p) "index.html" || negb expand
  then Path.basename p else "index.html".
Proof.
  rewrite get_output_filename_unfold. fold p.
  destruct (Str.startswith (Path.basename p) "base"); [discriminate|].
  destruct (_ || _ || _); intros H; inversion H; subst.
  - apply ResolverFacts.basename_join2.
  - simpl. now rewrite ResolverFacts.basename_join2.
Qed.

Lemma output_below o :
  Path.isabs p = false ->
  get_output_filename template_filepath output_dir force_unexpanded expand = Some o ->
  Str.startswith o output_dir = true.
Proof.
  intros Hrel. rewrite get_output_filename_unfold. fold p.
  destruct (Str.startswith (Path.basename p) "base"); [discriminate|].
  destruct (_ || _ || _); intros H; inversion H; subst.
  - now apply ResolverFacts.join2_prefix.
  - simpl. unfold Str.startswith.
    apply (ResolverFacts.prefix_trans _ (Path.join2 output_dir (Path.dirname p))).
    { apply ResolverFacts.join2_prefix. now apply ResolverFacts.dirname_relative. }
    apply (ResolverFacts.prefix_trans _
             (Path.join2 (Path.join2 output_dir (Path.dirname p))
                (Spec.before "." (Path.basename p)))).
    + apply ResolverFacts.join2_prefix, ResolverFacts.relative_clean.
      apply ResolverFacts.occurs_before.
      destruct (ResolverFacts.cut_parts p) as (h & t & _ & Hcut & Ht & _).
      now rewrite (PathFacts.basename_cut _ _ _ Hcut).
    + now apply ResolverFacts.join2_prefix.
Qed.

End ResolverExtras.

(** X1: a path that [get_output_filename] returns is never the empty
    string, so the test [if output_filename:] of [generate_html_file] only
    turns down the answer [False]. *)
Theorem get_output_filename_truthy
    (template_filepath output_dir : string) (force_unexpanded expand : bool)
    (o : string) :
  get_output_filename template_filepath output_dir force_unexpanded expand = Some o ->
  Str.truthy o = true.
Proof. apply output_truthy. Qed.

Lemma get_output_filename_truthy_witness :
  get_output_filename "" "" false true = Some "index.html"
  /\ Str.truthy "index.html" = true.
Proof.
  split; [reflexivity|].
  exact (get_output_filename_truthy "" "" false true "index.html" eq_refl).
Defined.

(** X2: the output keeps the base name of the (normalized) template path
    when it is placed flat, and is named "index.html" when it is expanded. *)
Theorem get_output_filename_basename
    (template_filepath output_dir : string) (force_unexpanded expand : bool)
    (o : string) :
  let p := Path.normpath template_filepath in
  get_output_filename template_filepath output_dir force_unexpanded expand = Some o ->
  Path.basename o =
  if force_unexpanded || String.eqb (Path.basename p) "index.html" || negb expand
  then Path.basename p else "index.html".
Proof. apply output_basename. Qed.

Lemma get_output_filename_basename_witness :
  get_output_filename "art//2013/page.html" "www/" true true
  = Some "www/art/2013/page.html"
  /\ Path.basename "www/art/2013/page.html" = "page.html".
Proof.
  split; [reflexivity|].
  exact (get_output_filename_basename "art//2013/page.html" "www/" true true
           "www/art/2013/page.html" eq_refl).
Defined.

(** X3: for a template path that is relative once normalized, the output
    path begins with [output_dir]. *)
Theorem get_output_filename_below_output_dir
    (template_filepath output_dir : string) (force_unexpanded expand : bool)
    (o : string) :
  Path.isabs (Path.normpath template_filepath) = false ->
  get_output_filename template_filepath output_dir force_unexpanded expand = Some o ->
  Str.startswith o output_dir = true.
Proof. apply output_below. Qed.

Lemma get_output_filename_below_output_dir_witness :
  Path.isabs (Path.normpath "art/page.tar.gz") = false
  /\ get_output_filename "art/page.tar.gz" "/srv/www" false true
     = Some "/srv/www/art/page/index.html"
  /\ Str.startswith "/srv/www/art/page/index.html" "/srv/www" = true.
Proof.
  split; [reflexivity|]. split; [reflexivity|].
  exact (get_output_filename_below_output_dir "art/page.tar.gz" "/srv/www"
           false true "/srv/www/art/page/index.html" eq_refl eq_refl).
Defined.

(** * More about [minify_html] *)

Module MinifyExtras.

Lemma reaches_strip s : forall b,
  MinifySpec.reaches_lt (MinifySpec.strip_between b s) = MinifySpec.reaches_lt s.
Proof.
  induction s as [|c s IH]; intros b; [reflexivity|]. simpl.
  destruct (Re.isspace c) eqn:Hc.
  - destruct (b && MinifySpec.reaches_lt s); [apply IH|].
    simpl. rewrite Hc. apply IH.
  - simpl. now rewrite Hc.
Qed.

Lemma strip_idem s : forall b,
  MinifySpec.strip_between b (MinifySpec.strip_between b s)
  = MinifySpec.strip_between b s.
Proof.
  induction s as [|c s IH]; intros b; [reflexivity|]. simpl.
  destruct (Re.isspace c) eqn:Hc.
  - destruct (b && MinifySpec.reaches_lt s) eqn:Hb; [apply IH|].
    simpl. rewrite Hc, reaches_strip, Hb. f_equal. apply IH.
  - simpl. rewrite Hc. f_equal. apply IH.
Qed.

Lemma strip_solid s : forall b,
  Spec.solid (MinifySpec.strip_between b s) = Spec.solid s.
Proof.
  induction s as [|c s IH]; intros b; [reflexivity|]. simpl.
  destruct (Re.isspace c) eqn:Hc.
  - destruct (b && MinifySpec.reaches_lt s); [apply IH|].
    simpl. rewrite Hc. apply IH.
  - simpl. rewrite Hc. f_equal. apply IH.
Qed.

Lemma strip_length s : forall b,
  String.length (MinifySpec.strip_between b s) <= String.length s.
Proof.
  induction s as [|c s IH]; intros b; [reflexivity|]. simpl.
  destruct (Re.isspace c).
  - destruct (b && MinifySpec.reaches_lt s).
    + specialize (IH b). lia.
    + simpl. specialize (IH b). lia.
  - simpl. specialize (IH (Ascii.eqb c ">")). lia.
Qed.

Lemma minify_strip html : minify_html html = MinifySpec.strip_between false html.
Proof.
  unfold minify_html, Re.sub.
  now apply (MinifyFacts.sub_strip (String.length html)).
Qed.

End MinifyExtras.

(** X4: minifying twice is minifying once. *)
Theorem minify_html_idempotent (html : string) :
  minify_html (minify_html html) = minify_html html.
Proof.
  rewrite !MinifyExtras.minify_strip. apply MinifyExtras.strip_idem.
Qed.

(** X5: [minify_html] takes away whitespace only: the characters that are
    not whitespace are the same, in the same order, and the text does not
    grow. *)
Theorem minify_html_whitespace_only (html : string) :
  Spec.solid (minify_html html) = Spec.solid html
  /\ String.length (minify_html html) <= String.length html.
Proof.
  rewrite MinifyExtras.minify_strip.
  split; [apply MinifyExtras.strip_solid|apply MinifyExtras.strip_length].
Qed.

(** * Writing a file and reading it back *)

Module StoreFacts.

Lemma assoc_set_entry_other c k v l :
  String.eqb c k = false -> FS.assoc c (FS.set_entry k v l) = FS.assoc c l.
Proof.
  intros Hc. induction l as [|[k' v'] l IH]; simpl.
  - now rewrite Hc.
  - destruct (String.eqb k k') eqn:E; simpl.
    + apply String.eqb_eq in E. subst k'. now rewrite Hc.
    + now rewrite IH.
Qed.

Lemma assoc_set_entry_keeps c k v l x :
  FS.assoc c l = Some x -> exists x', FS.assoc c (FS.set_entry k v l) = Some x'.
Proof.
  intros H. destruct (String.eqb c k) eqn:E.
  - apply String.eqb_eq in E. subst c. rewrite FSFacts.assoc_set_entry. now eexists.
  - rewrite assoc_set_entry_other by assumption. now exists x.
Qed.

(** Putting a regular file where there is nothing, or a regular file,
    keeps every directory and every name in it. *)
Lemma put_file_grows q : forall n d n',
  q <> [] ->
  FS.put n q (File d) = Some n' ->
  (FS.get n q = None \/ exists old, FS.get n q = Some (File old)) ->
  Spec.grows n n'.
Proof.
  induction q as [|x q IH]; intros n d n' Hq Hput Hold; [congruence|].
  destruct n as [d0|es0|]; try discriminate.
  assert (Hother : forall c' s es,
             FS.get (Dir es0) s = Some (Dir es) ->
             match s with
             | [] => True
             | z :: _ => String.eqb z x = false
             end ->
             exists es',
               FS.get (Dir (FS.set_entry x c' es0)) s = Some (Dir es')
               /\ forall c y, FS.assoc c es = Some y ->
                              exists y', FS.assoc c es' = Some y').
  { intros c' [|z s'] es Hget Hz.
    - inversion Hget; subst. eexists. split; [reflexivity|].
      intros c y. apply assoc_set_entry_keeps.
    - cbn [FS.get] in *. rewrite assoc_set_entry_other by assumption.
      exists es. split; [assumption|]. intros c y Hy. now exists y. }
  destruct q as [|y q'].
  - simpl in Hput. inversion Hput; subst n'. clear Hput.
    intros s es Hget.
    destruct s as [|z s']; [now apply Hother|].
    destruct (String.eqb z x) eqn:Ez; [|now apply Hother].
    apply String.eqb_eq in Ez. subst z. exfalso.
    cbn [FS.get] in Hget, Hold.
    destruct (FS.assoc x es0) as [c0|]; [|discriminate].
    destruct Hold as [Hold|[old Hold]]; [discriminate|].
    inversion Hold; subst c0. destruct s'; discriminate.
  - rewrite FSFacts.put_below in Hput.
    destruct (FS.assoc x es0) as [c0|] eqn:Hx; [|discriminate].
    destruct (FS.put c0 (y :: q') (File d)) as [c'|] eqn:Hc; [|discriminate].
    inversion Hput; subst n'. clear Hput.
    assert (Hgrow : Spec.grows c0 c').
    { apply (IH c0 d c'); [discriminate|assumption|].
      cbn [FS.get] in Hold. now rewrite Hx in Hold. }
    intros s es Hget.
    destruct s as [|z s']; [now apply Hother|].
    destruct (String.eqb z x) eqn:Ez; [|now apply Hother].
    apply String.eqb_eq in Ez. subst z.
    cbn [FS.get] in *. rewrite Hx in Hget. rewrite FSFacts.assoc_set_entry.
    now apply Hgrow.
Qed.

(** Path resolution goes the same way in a tree that has grown. *)
Lemma canon_grows n n' comps : forall stack r,
  Spec.grows n n' ->
  FS.canon n stack comps = Some r -> FS.canon n' stack comps = Some r.
Proof.
  induction comps as [|c comps IH]; intros stack r Hgrow H; [assumption|].
  cbn [FS.canon] in *.
  destruct (FS.get n stack) as [[d|es|]|] eqn:Hget; try discriminate.
  destruct (Hgrow _ _ Hget) as (es' & -> & Hnames).
  destruct (String.eqb c "" || String.eqb c "."); [now apply IH|].
  destruct (String.eqb c ".."); [now apply IH|].
  destruct (FS.assoc c es) as [x|] eqn:Hc; [|discriminate].
  destruct (Hnames _ _ Hc) as [x' ->]. now apply IH.
Qed.

(** What [store] writes is what [read] finds at the same path. *)
Lemma store_read path data ev st st' :
  OS.store path data ev st = (Return tt, st') -> OS.read st' path = Some data.
Proof.
  unfold OS.store.
  destruct (last (OS.components st path)) as [name|] eqn:Hlast; [|discriminate].
  apply last_Some in Hlast as [pre Hcomps]. rewrite Hcomps, removelast_last.
  destruct (Str.truthy path) eqn:Htruthy; [|discriminate]. cbn [negb orb].
  destruct (String.eqb name "") eqn:E1; [discriminate|].
  destruct (String.eqb name ".") eqn:E2; [discriminate|].
  destruct (String.eqb name "..") eqn:E3; [discriminate|]. cbn [orb].
  destruct (FS.canon (root st) [] pre) as [parent|] eqn:Hpre; [|discriminate].
  assert (Hput : forall r,
             (FS.get (root st) (parent ++ [name]) = None
              \/ exists old, FS.get (root st) (parent ++ [name]) = Some (File old)) ->
             FS.put (root st) (parent ++ [name]) (File data) = Some r ->
             OS.read {| root := r; cwd := cwd st; trace := trace st ++ [ev] |} path
             = Some data).
  { intros r Hold Hput.
    pose proof (FSFacts.get_put _ _ _ _ Hput) as Hget.
    destruct (FSFacts.get_parent _ _ _ _ Hget) as [es' Hparent].
    assert (Hname : FS.assoc name es' = Some (File data)).
    { rewrite FSFacts.get_app, Hparent in Hget. cbn [FS.get] in Hget.
      now destruct (FS.assoc name es'). }
    assert (Hgrow : Spec.grows (root st) r).
    { apply (put_file_grows (parent ++ [name]) _ data); try assumption.
      now destruct parent. }
    unfold OS.read, OS.lookup, OS.locate. rewrite Htruthy.
    change (OS.components _ path) with (OS.components st path).
    rewrite Hcomps, FSFacts.canon_app. cbn [root].
    rewrite (canon_grows _ _ _ _ _ Hgrow Hpre).
    cbn [FS.canon]. rewrite Hparent, E1, E2, E3. cbn [orb].
    now rewrite Hname, Hget. }
  destruct (FS.get (root st) (parent ++ [name])) as [[old|es|]|] eqn:Hold;
    try discriminate.
  - destruct (FS.put (root st) (parent ++ [name]) (File data)) as [r|] eqn:Hr;
      [|discriminate].
    intros H. inversion H; subst. apply Hput; [right; now exists old|reflexivity].
  - destruct (FS.put (root st) (parent ++ [name]) (File data)) as [r|] eqn:Hr;
      [|discriminate].
    intros H. inversion H; subst. apply Hput; [now left|reflexivity].
Qed.

End StoreFacts.

(** X6: when [generate_html_file] answers [True], the template was rendered,
    [get_output_filename] gave a path, and reading that path afterwards
    gives the rendered text, minified when [minify] is on. *)
Theorem generate_html_file_read_back
    (w : world) (template_filepath output_dir : string) (env : list string)
    (context : gmap string pyobj) (force_unexpanded minify expand : bool)
    (st st' : state) :
  generate_html_file w template_filepath output_dir env context
    force_unexpanded minify expand st = (Return (PBool true), st') ->
  exists html o,
    jinja_render w (OS.read st) env
      (replace_char Path.sep "/" template_filepath) context = Some html
    /\ get_output_filename template_filepath output_dir force_unexpanded expand
       = Some o
    /\ OS.read st' o = Some (if minify then minify_html html else html).
Proof.
  unfold generate_html_file.
  destruct (Str.startswith template_filepath "base"); [discriminate|].
  unfold bind at 1, OS.render.
  destruct (jinja_render w (OS.read st) env _ context) as [html|];
    [|discriminate].
  destruct (get_output_filename template_filepath output_dir
              force_unexpanded expand) as [o|]; [|discriminate].
  destruct (Str.truthy o); [|discriminate].
  unfold bind at 1, OS.make_sure_path_exists.
  intros H.
  apply RunFacts.bind_inv in H as [([] & st3 & Hw & H)|(e & _ & He)];
    [|discriminate].
  unfold ret in H. inversion H; subst st3.
  exists html, o. repeat split.
  now apply StoreFacts.store_read in Hw.
Qed.

Lemma generate_html_file_read_back_witness :
  exists st',
    generate_html_file Sample.plain "art/page.html" "out" ["templates"] ∅
      false true true Sample.start = (Return (PBool true), st')
    /\ OS.read st' "out/art/page/index.html" = Some "<b>Art</b>".
Proof.
  destruct (generate_html_file Sample.plain "art/page.html" "out" ["templates"]
              ∅ false true true Sample.start) as [r st'] eqn:Hrun.
  assert (Hr : r = Return (PBool true)) by (vm_compute in Hrun; congruence).
  subst r. exists st'. split; [reflexivity|].
  destruct (generate_html_file_read_back _ _ _ _ _ _ _ _ _ _ Hrun)
    as (html & o & Hhtml & Ho & Hread).
  vm_compute in Hhtml. vm_compute in Ho.
  inversion Hhtml; subst html. inversion Ho; subst o.
  exact Hread.
Defined.

(** X7: when a round of [copy_assets] on a regular file returns, reading
    the entry's name below [output_dir] gives the data of the file, whether
    or not something was there before. *)
Theorem copy_assets_step_read_back
    (assets_dir output_dir : string) (quiet : bool) (item : string)
    (st st' : state) (data : string) :
  OS.lookup st (Path.join assets_dir [item]) = Some (File data) ->
  copy_assets_step assets_dir output_dir quiet item st = (Return tt, st') ->
  OS.read st' (Path.join output_dir [item]) = Some data.
Proof.
  intros Hsrc. unfold copy_assets_step.
  unfold bind at 1, OS.isdir. rewrite Hsrc. cbn [andb when].
  unfold bind at 1, ret. unfold bind at 1, OS.isfile. rewrite Hsrc. cbn [when].
  match goal with
  | |- context [when (negb quiet) (OS.print ?l)] =>
      destruct (FSFacts.when_print (negb quiet) l st) as (st1 & Hprint & Hsame)
  end.
  unfold bind at 1. rewrite Hprint.
  assert (Hread : OS.read st1 (Path.join assets_dir [item]) = Some data).
  { unfold OS.read. now rewrite (FSFacts.lookup_same_files st st1 _ Hsame), Hsrc. }
  unfold OS.copyfile.
  assert (Hcopy : (d <- OS.read_text (Path.join assets_dir [item]) ;;
                   OS.store (Path.join output_dir [item]) d
                     (CopyFile (Path.join assets_dir [item])
                        (Path.join output_dir [item]))) st1
                  = (Return tt, st') ->
                  OS.read st' (Path.join output_dir [item]) = Some data).
  { unfold bind, OS.read_text. rewrite Hread. apply StoreFacts.store_read. }
  destruct (OS.locate st1 (Path.join assets_dir [item])) as [a|];
    [|exact Hcopy].
  destruct (OS.locate st1 (Path.join output_dir [item])) as [b|];
    [|exact Hcopy].
  destruct (bool_decide (a = b)); [discriminate|exact Hcopy].
Qed.

Lemma copy_assets_step_read_back_witness :
  exists st',
    OS.lookup Sample.start "assets/robots.txt" = Some (File "User-agent: *")
    /\ copy_assets_step "assets" "www" true "robots.txt" Sample.start
       = (Return tt, st')
    /\ OS.read st' "www/robots.txt" = Some "User-agent: *".
Proof.
  destruct (copy_assets_step "assets" "www" true "robots.txt" Sample.start)
    as [r st'] eqn:Hrun.
  assert (Hr : r = Return tt) by (vm_compute in Hrun; congruence).
  subst r.
  pose proof (copy_assets_step_read_back "assets" "www" true "robots.txt"
                Sample.start st' "User-agent: *" eq_refl Hrun) as Hread.
  exists st'. split; [reflexivity|]. split; [reflexivity|exact Hread].
Defined.

(** * More about the rounds of [generate_html] *)

Module WalkerFacts.

(** A round of the loop either writes nothing, or it reaches the call of
    [generate_html_file], with [expand] as [minify], having written nothing
    before. *)
Lemma generate_html_step_call w td out env ctx unexp expand quiet root f st :
  let run := generate_html_step w td out env ctx unexp expand quiet root f st in
  Spec.written_paths (trace (snd run)) = Spec.written_paths (trace st)
  \/ exists tp st3 r4,
       Path.relpath (cwd st) (Path.join root [f]) td = Some tp
       /\ generate_html_file w tp out env ctx
            (existsb (String.eqb tp) unexp) expand true st3 = (r4, snd run)
       /\ Spec.written_paths (trace st3) = Spec.written_paths (trace st).
Proof.
  intros run. subst run.
  destruct (generate_html_step w td out env ctx unexp expand quiet root f st)
    as [r st'] eqn:H.
  cbn [snd]. unfold generate_html_step in H.
  unfold bind at 1, OS.relpath in H.
  destruct (Path.relpath (cwd st) (Path.join root [f]) td) as [tp|] eqn:Hrel.
  2:{ inversion H; subst. now left. }
  unfold bind at 1, OS.debug, emit in H.
  match type of H with
  | bind _ _ ?s = _ => set (st1 := s) in H
  end.
  assert (Hp1 : Spec.written_paths (trace st1) = Spec.written_paths (trace st)).
  { subst st1. cbn [trace]. now rewrite TraceFacts.written_paths_snoc, app_nil_r. }
  apply RunFacts.bind_inv in H as [(ig & st2 & Hig & H)|(e & Hig & _)].
  2:{ apply TraceFacts.silent_ignore in Hig as [Hp2 _]. left. congruence. }
  apply TraceFacts.silent_ignore in Hig as [Hp2 _].
  assert (Hprint : forall l, Spec.silent (when (negb quiet) (OS.print l))).
  { intros l. now apply TraceFacts.silent_when, TraceFacts.silent_emit. }
  destruct ig.
  { apply Hprint in H as [Hp3 _]. left. congruence. }
  apply RunFacts.bind_inv in H as [([] & st3 & Hpr & H)|(e & Hpr & _)].
  2:{ apply Hprint in Hpr as [Hp3 _]. left. congruence. }
  apply Hprint in Hpr as [Hp3 _].
  right. exists tp, st3.
  apply RunFacts.bind_inv in H as [(v & st4 & Hfile & H)|(e & Hfile & _)].
  - inversion H; subst st4. exists (Return v). repeat split; [assumption|congruence].
  - exists (Raise e). repeat split; [assumption|congruence].
Qed.

Lemma existsb_eqb tp l : existsb (String.eqb tp) l = true <-> In tp l.
Proof.
  rewrite existsb_exists. split.
  - intros (x & Hin & Hx). apply String.eqb_eq in Hx. now subst.
  - intros Hin. exists tp. split; [assumption|apply String.eqb_refl].
Qed.

End WalkerFacts.

(** X8: a round of [generate_html] writes no file for a template whose
    relative path starts with "base", nor for one whose base name starts with
    "base", whatever the flags and the list of exempted templates are. *)
Theorem generate_html_step_base
    (w : world) (templates_dir output_dir : string) (env : list string)
    (context : gmap string pyobj) (unexpanded_templates : list string)
    (expand quiet : bool) (root f : string) (st : state) (tp : string) :
  Path.relpath (cwd st) (Path.join root [f]) templates_dir = Some tp ->
  Str.startswith tp "base" = true
  \/ Str.startswith (Path.basename (Path.normpath tp)) "base" = true ->
  Spec.written_paths
    (trace (snd (generate_html_step w templates_dir output_dir env context
                   unexpanded_templates expand quiet root f st)))
  = Spec.written_paths (trace st).
Proof.
  intros Hrel Hbase.
  destruct (WalkerFacts.generate_html_step_call w templates_dir output_dir env
              context unexpanded_templates expand quiet root f st)
    as [H|(tp' & st3 & r4 & Hrel' & Hfile & Hp3)]; [exact H|].
  rewrite Hrel in Hrel'. inversion Hrel'; subst tp'. rewrite <- Hp3.
  destruct Hbase as [Hbase|Hbase].
  - unfold generate_html_file in Hfile. rewrite Hbase in Hfile.
    now inversion Hfile.
  - apply TraceFacts.generate_html_file_written in Hfile
      as [_ [Hw|(o & Ho & _)]]; [exact Hw|].
    rewrite get_output_filename_unfold, Hbase in Ho. discriminate.
Qed.

Lemma generate_html_step_base_witness :
  Path.relpath "/home/u" (Path.join "templates" ["base.html"]) "templates"
  = Some "base.html"
  /\ Spec.written_paths
       (trace (snd (generate_html_step Sample.plain "templates" "out"
                      ["templates"] ∅ ["base.html"] false false
                      "templates" "base.html" Sample.start))) = [].
Proof.
  split; [reflexivity|].
  apply (generate_html_step_base Sample.plain "templates" "out" ["templates"] ∅
           ["base.html"] false false "templates" "base.html" Sample.start
           "base.html" eq_refl).
  left. reflexivity.
Defined.

(** X9: a template that is in the list of exempted templates, or whose base
    name is "index.html", is written, when a round writes it, at
    [output_dir] joined with its normalized path, whatever [expand] is. *)
Theorem generate_html_step_flat
    (w : world) (templates_dir output_dir : string) (env : list string)
    (context : gmap string pyobj) (unexpanded_templates : list string)
    (expand quiet : bool) (root f : string) (st : state) (tp : string) :
  let st' := snd (generate_html_step w templates_dir output_dir env context
                    unexpanded_templates expand quiet root f st) in
  Path.relpath (cwd st) (Path.join root [f]) templates_dir = Some tp ->
  In tp unexpanded_templates
  \/ Path.basename (Path.normpath tp) = "index.html" ->
  Spec.written_paths (trace st') = Spec.written_paths (trace st)
  \/ Spec.written_paths (trace st')
     = (Spec.written_paths (trace st)
        ++ [Path.join output_dir [Path.normpath tp]])%list.
Proof.
  intros st' Hrel Hflat. subst st'.
  destruct (WalkerFacts.generate_html_step_call w templates_dir output_dir env
              context unexpanded_templates expand quiet root f st)
    as [H|(tp' & st3 & r4 & Hrel' & Hfile & Hp3)]; [now left|].
  rewrite Hrel in Hrel'. inversion Hrel'; subst tp'. rewrite <- Hp3.
  apply TraceFacts.generate_html_file_written in Hfile
    as [_ [Hw|(o & Ho & Hw)]]; [now left|].
  right. rewrite Hw. do 2 f_equal.
  rewrite get_output_filename_unfold in Ho.
  destruct (Str.startswith (Path.basename (Path.normpath tp)) "base");
    [discriminate|].
  assert (E : existsb (String.eqb tp) unexpanded_templates
              || String.eqb (Path.basename (Path.normpath tp)) "index.html"
              = true).
  { destruct Hflat as [Hin|Hidx].
    - apply WalkerFacts.existsb_eqb in Hin. now rewrite Hin.
    - rewrite Hidx. apply orb_true_r. }
  rewrite E in Ho. cbn [orb] in Ho. now inversion Ho.
Qed.

Lemma generate_html_step_flat_witness :
  let st' := snd (generate_html_step Sample.plain "templates" "out"
                    ["templates"] ∅ ["about.html"] true true
                    "templates" "about.html" Sample.start) in
  Path.relpath "/home/u" (Path.join "templates" ["about.html"]) "templates"
  = Some "about.html"
  /\ In "about.html" ["about.html"]
  /\ Spec.written_paths (trace st') = ["out/about.html"].
Proof.
  split; [reflexivity|]. split; [now left|].
  destruct (generate_html_step_flat Sample.plain "templates" "out"
              ["templates"] ∅ ["about.html"] true true "templates" "about.html"
              Sample.start "about.html" eq_refl (or_introl (or_introl eq_refl)))
    as [H|H].
  - vm_compute in H. discriminate H.
  - exact H.
Defined.

(** * What [quiet] silences *)

Module QuietFacts.

Lemma printed_snoc t e :
  Spec.printed (t ++ [e])
  = (Spec.printed t ++ if Spec.is_print e then [e] else [])%list.
Proof.
  unfold Spec.printed. rewrite List.filter_app. simpl.
  now destruct (Spec.is_print e).
Qed.

Lemma mute_same {A} (m : M A) :
  (forall st r st', m st = (r, st') -> st' = st) -> Spec.mute m.
Proof. intros Hm st r st' H. now rewrite (Hm _ _ _ H). Qed.

Lemma mute_ret {A} (a : A) : Spec.mute (ret a).
Proof. apply mute_same. intros st r st' H. now inversion H. Qed.

Lemma mute_raise {A} e : Spec.mute (@raise A e).
Proof. apply mute_same. intros st r st' H. now inversion H. Qed.

Lemma mute_bind {A B} (m : M A) (k : A -> M B) :
  Spec.mute m -> (forall a, Spec.mute (k a)) -> Spec.mute (bind m k).
Proof.
  intros Hm Hk st r st' H.
  apply RunFacts.bind_inv in H as [(a & st1 & H1 & H2)|(e & H1 & _)].
  - rewrite (Hk _ _ _ _ H2). now apply Hm in H1.
  - now apply Hm in H1.
Qed.

Lemma mute_for_each {A} (l : list A) (body : A -> M unit) :
  (forall x, Spec.mute (body x)) -> Spec.mute (for_each l body).
Proof.
  intros Hbody. induction l as [|x l IH]; [apply mute_ret|].
  simpl. apply mute_bind; [apply Hbody|intros _; exact IH].
Qed.

Lemma mute_emit e : Spec.is_print e = false -> Spec.mute (emit e).
Proof.
  intros He st r st' H. inversion H; subst. cbn [trace].
  now rewrite printed_snoc, He, app_nil_r.
Qed.

(** A primitive that leaves the state alone: every branch is inspected. *)
Ltac same_state :=
  apply mute_same; intros st r st' H;
  repeat match type of H with
         | context [match ?x with _ => _ end] => destruct x
         | context [if ?x then _ else _] => destruct x
         end;
  now inversion H.

Lemma mute_path_exists p : Spec.mute (OS.path_exists p).
Proof. unfold OS.path_exists. same_state. Qed.

Lemma mute_isdir p : Spec.mute (OS.isdir p).
Proof. unfold OS.isdir. same_state. Qed.

Lemma mute_isfile p : Spec.mute (OS.isfile p).
Proof. unfold OS.isfile. same_state. Qed.

Lemma mute_listdir p : Spec.mute (OS.listdir p).
Proof. unfold OS.listdir. same_state. Qed.

Lemma mute_relpath p q : Spec.mute (OS.relpath p q).
Proof. unfold OS.relpath. same_state. Qed.

Lemma mute_walk p : Spec.mute (OS.walk p).
Proof. unfold OS.walk. same_state. Qed.

Lemma mute_read_text p : Spec.mute (OS.read_text p).
Proof. unfold OS.read_text. same_state. Qed.

Lemma mute_make_sure_path_exists p : Spec.mute (OS.make_sure_path_exists p).
Proof.
  intros st r st' H. inversion H; subst. cbn [trace].
  now rewrite printed_snoc, app_nil_r.
Qed.

Lemma mute_render w sp name ctx : Spec.mute (OS.render w sp name ctx).
Proof.
  intros st r st' H. unfold OS.render in H.
  destruct (jinja_render w (OS.read st) sp name ctx); inversion H; subst.
  - cbn [trace]. now rewrite printed_snoc, app_nil_r.
  - reflexivity.
Qed.

Lemma mute_store p d ev : Spec.is_print ev = false -> Spec.mute (OS.store p d ev).
Proof.
  intros He st r st' H.
  apply TraceFacts.store_written in H as [_ [-> | ->]]; [reflexivity|].
  now rewrite printed_snoc, He, app_nil_r.
Qed.

Lemma mute_copytree src dst : Spec.mute (OS.copytree src dst).
Proof.
  intros st r st' H. unfold OS.copytree in H.
  repeat match type of H with
         | context [match ?x with _ => _ end] => destruct x
         end;
    inversion H; subst; try reflexivity.
  cbn [trace]. now rewrite printed_snoc, app_nil_r.
Qed.

Lemma mute_copyfile src dst : Spec.mute (OS.copyfile src dst).
Proof.
  assert (Hcopy : Spec.mute (d <- OS.read_text src ;;
                             OS.store dst d (CopyFile src dst))).
  { apply mute_bind; [apply mute_read_text|]. intros d. now apply mute_store. }
  intros st r st' H. unfold OS.copyfile in H.
  destruct (OS.locate st src); [|now apply Hcopy in H].
  destruct (OS.locate st dst); [|now apply Hcopy in H].
  destruct (bool_decide _); [now inversion H|now apply Hcopy in H].
Qed.

Lemma mute_ignore w path : Spec.mute (_ignore w path).
Proof.
  unfold _ignore, OS.is_binary.
  apply mute_bind.
  - apply mute_bind; [apply mute_read_text|intros; apply mute_ret].
  - intros b.
    repeat match goal with |- Spec.mute (if ?c then _ else _) => destruct c end;
      apply mute_ret.
Qed.

Lemma mute_generate_html_file w tp out env ctx fu minify expand :
  Spec.mute (generate_html_file w tp out env ctx fu minify expand).
Proof.
  unfold generate_html_file.
  destruct (Str.startswith tp "base"); [apply mute_ret|].
  apply mute_bind; [apply mute_render|]. intros html.
  destruct (get_output_filename tp out fu expand) as [o|]; [|apply mute_ret].
  destruct (Str.truthy o); [|apply mute_ret].
  apply mute_bind; [apply mute_make_sure_path_exists|]. intros _.
  apply mute_bind; [now apply mute_store|]. intros _. apply mute_ret.
Qed.

Lemma mute_generate_html_step w td out env ctx unexp expand root f :
  Spec.mute (generate_html_step w td out env ctx unexp expand true root f).
Proof.
  unfold generate_html_step. cbn [negb when].
  apply mute_bind; [apply mute_relpath|]. intros tp.
  apply mute_bind; [now apply mute_emit|]. intros _.
  apply mute_bind; [apply mute_ignore|]. intros [|]; [apply mute_ret|].
  apply mute_bind; [apply mute_ret|]. intros _.
  apply mute_bind; [apply mute_generate_html_file|]. intros _. apply mute_ret.
Qed.

Lemma mute_generate_html w td macros out ctx unexp expand :
  Spec.mute (generate_html w td macros out ctx unexp expand true).
Proof.
  unfold generate_html.
  apply mute_bind; [now apply mute_emit|]. intros _.
  apply mute_bind; [apply mute_path_exists|]. intros ex.
  destruct (negb ex); [apply mute_raise|].
  apply mute_bind; [apply mute_make_sure_path_exists|]. intros _.
  apply mute_bind; [apply mute_walk|]. intros triples.
  apply mute_bind; [|intros; apply mute_ret].
  apply mute_for_each. intros [[root dirs] files].
  apply mute_bind; [now apply mute_emit|]. intros _.
  apply mute_for_each. intros f. apply mute_generate_html_step.
Qed.

Lemma mute_copy_assets assets_dir output_dir :
  Spec.mute (copy_assets assets_dir output_dir true).
Proof.
  unfold copy_assets.
  apply mute_bind; [apply mute_listdir|]. intros assets.
  apply mute_for_each. intros item. unfold copy_assets_step. cbn [negb when].
  apply mute_bind; [apply mute_isdir|]. intros d.
  apply mute_bind.
  { destruct (d && _ && _); cbn [when]; [|apply mute_ret].
    apply mute_bind; [apply mute_ret|]. intros _. apply mute_copytree. }
  intros _. apply mute_bind; [apply mute_isfile|]. intros [|]; cbn [when];
    [|apply mute_ret].
  apply mute_bind; [apply mute_ret|]. intros _. apply mute_copyfile.
Qed.

End QuietFacts.

(** X10: with [quiet] on, [generate_html] prints no line, whether it
    returns or raises. *)
Theorem generate_html_quiet
    (w : world) (templates_dir : string) (macro_dirs : list string)
    (output_dir : string) (context : option (gmap string pyobj))
    (unexpanded_templates : list string) (expand : bool) (st : state) :
  Spec.printed
    (trace (snd (generate_html w templates_dir macro_dirs output_dir context
                   unexpanded_templates expand true st)))
  = Spec.printed (trace st).
Proof.
  destruct (generate_html w templates_dir macro_dirs output_dir context
              unexpanded_templates expand true st) as [r st'] eqn:H.
  now apply QuietFacts.mute_generate_html in H.
Qed.

(** X11: with [quiet] on, [copy_assets] prints no line, whether it returns
    or raises. *)
Theorem copy_assets_quiet (assets_dir output_dir : string) (st : state) :
  Spec.printed (trace (snd (copy_assets assets_dir output_dir true st)))
  = Spec.printed (trace st).
Proof.
  destruct (copy_assets assets_dir output_dir true st) as [r st'] eqn:H.
  now apply QuietFacts.mute_copy_assets in H.
Qed.

(** * More about [generate_context] *)

Section ContextExtras.

Variable w : world.
Variable context_dir : string.
Variable st : state.

Lemma same_files_trans st1 st2 :
  Spec.same_files st st1 -> Spec.same_files st1 st2 -> Spec.same_files st st2.
Proof. intros [H1 H2] [H3 H4]. split; congruence. Qed.

(** A round of the loop changes no file, and it returns exactly when the
    entry is loadable. *)
Lemma generate_context_step_outcome st1 c fn :
  Spec.same_files st st1 ->
  Spec.same_files st (snd (generate_context_step w context_dir c fn st1))
  /\ ((exists c', fst (generate_context_step w context_dir c fn st1) = Return c')
      <-> Spec.loadable w st context_dir fn).
Proof.
  intros Hsame. unfold generate_context_step, Spec.loadable.
  destruct (Path.splitext fn) as [name ext] eqn:Hsplit. cbn [fst snd].
  destruct (String.eqb_spec ext ".json") as [Hj|Hj].
  { unfold bind, OS.read_text, ret, raise, OS.print, emit.
    rewrite (read_same_files st st1 _ Hsame).
    destruct (OS.read st (Path.join context_dir [fn])) as [text|].
    - destruct (json_loads w text) as [o|] eqn:Hparse.
      + destruct (is_not_none o); cbn [fst snd].
        * split; [destruct Hsame; now split|]. split; [|now eexists].
          intros _. split; [now exists text, o|].
          intros [E|E]; rewrite Hj in E; discriminate.
        * split; [assumption|]. split; [|now eexists].
          intros _. split; [now exists text, o|].
          intros [E|E]; rewrite Hj in E; discriminate.
      + cbn [fst snd]. split; [assumption|]. split; [intros [c' H]; discriminate|].
        intros [H _]. destruct (H Hj) as (t & v & Ht & Hv).
        inversion Ht; subst t. congruence.
    - cbn [fst snd]. split; [assumption|]. split; [intros [c' H]; discriminate|].
      intros [H _]. destruct (H Hj) as (t & v & Ht & _). discriminate. }
  destruct (String.eqb ext ".yml" || String.eqb ext ".yaml") eqn:Hy.
  { assert (Hext : ext = ".yml" \/ ext = ".yaml").
    { apply orb_true_iff in Hy as [Hy|Hy]; apply String.eqb_eq in Hy; auto. }
    unfold bind, OS.read_text, ret, raise, OS.print, emit.
    rewrite (read_same_files st st1 _ Hsame).
    destruct (OS.read st (Path.join context_dir [fn])) as [text|].
    - destruct (yaml_safe_load w text) as [o|] eqn:Hparse.
      + destruct (is_not_none o); cbn [fst snd].
        * split; [destruct Hsame; now split|]. split; [|now eexists].
          intros _. split; [congruence|]. intros _. now exists text, o.
        * split; [assumption|]. split; [|now eexists].
          intros _. split; [congruence|]. intros _. now exists text, o.
      + cbn [fst snd]. split; [assumption|]. split; [intros [c' H]; discriminate|].
        intros [_ H]. destruct (H Hext) as (t & v & Ht & Hv).
        inversion Ht; subst t. congruence.
    - cbn [fst snd]. split; [assumption|]. split; [intros [c' H]; discriminate|].
      intros [_ H]. destruct (H Hext) as (t & v & Ht & _). discriminate. }
  unfold bind, ret. cbn [is_not_none fst snd].
  split; [assumption|]. split; [|now eexists].
  intros _. apply orb_false_iff in Hy as [Hy1 Hy2].
  apply String.eqb_neq in Hy1, Hy2. split; [congruence|]. intros [E|E]; congruence.
Qed.

Lemma generate_context_loop_outcome all_files : forall st1 c,
  Spec.same_files st st1 ->
  Spec.same_files st (snd (generate_context_loop w context_dir all_files c st1))
  /\ ((exists c', fst (generate_context_loop w context_dir all_files c st1)
                  = Return c')
      <-> forall fn, In fn all_files -> Spec.loadable w st context_dir fn).
Proof.
  induction all_files as [|fn rest IH]; intros st1 c Hsame.
  - simpl. split; [assumption|]. split; [intros _ fn []|]. now eexists.
  - cbn [generate_context_loop]. unfold bind.
    destruct (generate_context_step_outcome st1 c fn Hsame) as [Hs1 Hiff].
    destruct (generate_context_step w context_dir c fn st1) as [[c1|e] st2].
    + cbn [fst snd] in *. destruct (IH st2 c1 Hs1) as [Hs2 Hrest].
      split; [assumption|]. rewrite Hrest. split.
      * intros H fn' [<-|Hin]; [|now apply H]. apply Hiff. now eexists.
      * intros H fn' Hin. apply H. now right.
    + cbn [fst snd] in *. split; [assumption|]. split.
      * intros [c' H]. discriminate.
      * intros H. exfalso.
        destruct (proj2 Hiff (H fn (or_introl eq_refl))) as [c' Hc']. discriminate.
Qed.

Lemma take_drop n : forall s, Str.take n s +:+ Str.drop n s = s.
Proof.
  induction n as [|n IH]; intros [|c s]; try reflexivity.
  simpl. rewrite StrFacts.app_cons. now rewrite IH.
Qed.

Lemma generate_context_unfold :
  generate_context w context_dir st =
  match OS.lookup st context_dir with
  | Some (Dir es) => generate_context_loop w context_dir (map fst es) ∅ st
  | _ => (Raise (OSError context_dir), st)
  end.
Proof.
  unfold generate_context, bind, OS.listdir.
  now destruct (OS.lookup st context_dir) as [[d|es|]|].
Qed.

(** The two results of [os.path.splitext] make up the path. *)
Lemma splitext_join path :
  fst (Path.splitext path) +:+ snd (Path.splitext path) = path.
Proof.
  unfold Path.splitext. destruct (_ && _); cbn [fst snd].
  - apply take_drop.
  - apply StrFacts.app_nil_r.
Qed.

End ContextExtras.

(** X12: on a directory, [generate_context] returns a dictionary exactly
    when every entry whose extension is ".json", ".yml" or ".yaml" can be
    read as a regular file and parses; a subdirectory with such a name, or a
    malformed file, makes it raise. *)
Theorem generate_context_returns_iff
    (w : world) (context_dir : string) (st : state)
    (entries : list (string * node)) :
  OS.lookup st context_dir = Some (Dir entries) ->
  (exists ctx, fst (generate_context w context_dir st) = Return ctx)
  <-> forall fn, In fn (map fst entries) -> Spec.loadable w st context_dir fn.
Proof.
  intros Hdir. unfold generate_context, bind at 1, OS.listdir. rewrite Hdir.
  apply generate_context_loop_outcome. now split.
Qed.

Lemma generate_context_returns_iff_witness :
  OS.lookup Sample.start "context" = Some (Dir Sample.context_entries)
  /\ forall fn, In fn (map fst Sample.context_entries) ->
                Spec.loadable Sample.plain Sample.start "context" fn.
Proof.
  split; [reflexivity|].
  apply (generate_context_returns_iff Sample.plain "context" Sample.start
           Sample.context_entries eq_refl).
  eexists. vm_compute. reflexivity.
Defined.

(** X13: [generate_context] only reads: whether it returns or raises, the
    files and the working directory are as before; on a path that is not a
    directory it raises the error of [os.listdir] at once. *)
Theorem generate_context_reads_only
    (w : world) (context_dir : string) (st : state) :
  let run := generate_context w context_dir st in
  Spec.same_files st (snd run)
  /\ ((forall entries, OS.lookup st context_dir <> Some (Dir entries)) ->
      run = (Raise (OSError context_dir), st)).
Proof.
  intros run. subst run. rewrite generate_context_unfold.
  destruct (OS.lookup st context_dir) as [[d|es|]|] eqn:Hdir.
  - split; [now split|reflexivity].
  - split; [|intros H; now destruct (H es)].
    apply generate_context_loop_outcome. now split.
  - split; [now split|reflexivity].
  - split; [now split|reflexivity].
Qed.

(** X14: every key of the dictionary [generate_context] returns is the name
    of a direct entry of the directory without its extension, the extension
    being ".json", ".yml" or ".yaml". *)
Theorem generate_context_key_names
    (w : world) (context_dir : string) (st : state)
    (entries : list (string * node)) (ctx : gmap string pyobj) (st' : state)
    (k : string) (v : pyobj) :
  OS.lookup st context_dir = Some (Dir entries) ->
  generate_context w context_dir st = (Return ctx, st') ->
  ctx !! k = Some v ->
  exists ext,
    In (k +:+ ext) (map fst entries)
    /\ (ext = ".json" \/ ext = ".yml" \/ ext = ".yaml").
Proof.
  intros Hdir Hrun Hk.
  destruct (generate_context_run w context_dir st entries ctx st' Hdir Hrun)
    as [Hkeys _].
  apply Hkeys in Hk as (before & fn & after & Hlist & Hc & _).
  destruct Hc as (Hname & _ & text & _ & Hext).
  exists (snd (Path.splitext fn)). split.
  - rewrite <- Hname, splitext_join, Hlist. apply in_or_app. right. now left.
  - destruct Hext as [[E _]|[[E|E] _]]; auto.
Qed.

Lemma generate_context_key_names_witness :
  exists ctx st',
    OS.lookup Sample.start "context" = Some (Dir Sample.context_entries)
    /\ generate_context Sample.plain "context" Sample.start = (Return ctx, st')
    /\ ctx !! "numbers" = Some (PList [PInt 1; PInt 2; PInt 3; PInt 4])
    /\ exists ext, In ("numbers" +:+ ext) (map fst Sample.context_entries).
Proof.
  destruct (generate_context Sample.plain "context" Sample.start)
    as [r st'] eqn:Hrun.
  assert (Hr : exists ctx, r = Return ctx
                           /\ ctx !! "numbers"
                              = Some (PList [PInt 1; PInt 2; PInt 3; PInt 4])).
  { vm_compute in Hrun. inversion Hrun. eexists. split; reflexivity. }
  destruct Hr as (ctx & -> & Hk).
  exists ctx, st'. split; [reflexivity|]. split; [reflexivity|].
  split; [exact Hk|].
  destruct (generate_context_key_names Sample.plain "context" Sample.start
              Sample.context_entries ctx st' "numbers" _ eq_refl Hrun Hk)
    as (ext & Hin & _).
  now exists ext.
Defined.

(** X15: [_ignore] only reads: it leaves the state as it is, and it raises,
    with the error of opening the file, exactly when the path is not a
    regular file that can be read. *)
Theorem ignore_reads_only (w : world) (path : string) (st : state) :
  snd (_ignore w path st) = st
  /\ (fst (_ignore w path st) = Raise (OSError path) <-> OS.read st path = None)
  /\ ((exists e, fst (_ignore w path st) = Raise e) <-> OS.read st path = None).
Proof.
  unfold _ignore, OS.is_binary, OS.read_text, bind, ret.
  destruct (OS.read st path) as [d|].
  - repeat match goal with |- context [if ?c then _ else _] => destruct c end;
      cbn [fst snd]; (split; [reflexivity|]);
      (split; split; try discriminate; intros [e H]; discriminate).
  - cbn [fst snd]. split; [reflexivity|]. split; split; auto. intros _. now eexists.
Qed.

(** * [normpath] on its own results *)

Module NormFacts.
Import StrFacts PathFacts.
Local Open Scope list_scope.

Lemma settled_prefix k l x : Spec.settled k (l ++ [x]) -> Spec.settled k l.
Proof.
  intros H acc c rest E. apply (H acc c (rest ++ [x])).
  rewrite E. now rewrite <- List.app_assoc.
Qed.

Lemma settled_removelast k l : Spec.settled k l -> Spec.settled k (removelast l).
Proof.
  destruct l as [|x l _] using rev_ind; [trivial|].
  rewrite removelast_last. apply settled_prefix.
Qed.

Lemma settled_nil k : Spec.settled k [].
Proof. intros acc c rest E. now destruct acc. Qed.

Lemma settled_snoc k l x :
  Spec.settled k l -> Path.norm_step k l x = (l ++ [x])%list ->
  Spec.settled k (l ++ [x]).
Proof.
  intros Hl Hx acc c rest E.
  destruct rest as [|y rest _] using rev_ind.
  - apply app_inj_tail in E as [-> ->]. exact Hx.
  - rewrite app_comm_cons, List.app_assoc in E.
    apply app_inj_tail in E as [-> _]. now apply (Hl acc c rest).
Qed.

(** The loop of [normpath] keeps its list settled. *)
Lemma norm_step_settled k acc comp :
  Spec.settled k acc -> Spec.settled k (Path.norm_step k acc comp).
Proof.
  intros Hacc.
  destruct (decide (Path.norm_step k acc comp = acc ++ [comp])) as [E|E].
  - rewrite E. now apply settled_snoc.
  - unfold Path.norm_step in *.
    destruct (String.eqb comp "" || String.eqb comp Path.curdir); [assumption|].
    destruct (_ || _ || _); [congruence|].
    now apply settled_removelast.
Qed.

Lemma norm_loop_settled k comps : forall acc,
  Spec.settled k acc -> Spec.settled k (fold_left (Path.norm_step k) comps acc).
Proof.
  induction comps as [|c comps IH]; intros acc Hacc; [assumption|].
  simpl. apply IH. now apply norm_step_settled.
Qed.

(** On a settled list the loop of [normpath] changes nothing. *)
Lemma norm_loop_fixed k l : forall acc,
  Spec.settled k (acc ++ l) ->
  fold_left (Path.norm_step k) l acc = (acc ++ l)%list.
Proof.
  induction l as [|c l IH]; intros acc H; [now rewrite List.app_nil_r|].
  simpl. rewrite (H acc c l eq_refl).
  rewrite IH; rewrite <- List.app_assoc; [reflexivity|exact H].
Qed.

Lemma split_sep s : Str.split (String Path.sep s) Path.sep = "" :: Str.split s Path.sep.
Proof. reflexivity. Qed.

Lemma split_clean_one c : Spec.occurs Path.sep c = false -> Str.split c Path.sep = [c].
Proof.
  induction c as [|x c IH]; [reflexivity|]. simpl.
  intros H. apply orb_false_elim in H as [Hx Hc].
  now rewrite Hx, (IH Hc).
Qed.

Lemma split_app_sep c s :
  Spec.occurs Path.sep c = false ->
  Str.split (c +:+ String Path.sep s) Path.sep = c :: Str.split s Path.sep.
Proof.
  induction c as [|x c IH]; [reflexivity|].
  intros H. simpl in H. apply orb_false_elim in H as [Hx Hc].
  rewrite app_cons. cbn [Str.split]. now rewrite Hx, (IH Hc).
Qed.

Lemma split_join l :
  Forall Spec.component l -> l <> [] -> Str.split (Str.join Path.sep l) Path.sep = l.
Proof.
  induction 1 as [|c l [_ Hc] Hl IH]; [congruence|]. intros _.
  destruct l as [|d l].
  - now apply split_clean_one.
  - change (Str.join Path.sep (c :: d :: l))
      with (c +:+ String Path.sep (Str.join Path.sep (d :: l))).
    rewrite split_app_sep by assumption. now rewrite IH.
Qed.

Lemma norm_step_empty k acc : Path.norm_step k acc "" = acc.
Proof. reflexivity. Qed.

Lemma prefix_same c p s :
  String.prefix (String c p) (String c s) = String.prefix p s.
Proof. cbn [String.prefix]. destruct (ascii_dec c c); congruence. Qed.

Lemma prefix_other c x p s :
  c <> x -> String.prefix (String c p) (String x s) = false.
Proof. intros H. cbn [String.prefix]. destruct (ascii_dec c x); congruence. Qed.

Lemma leading_slashes k x s :
  k <= 2 -> x <> "/"%char ->
  (if Str.startswith (Str.replicate k Path.sep +:+ String x s) "/" then
     if Str.startswith (Str.replicate k Path.sep +:+ String x s) "//"
        && negb (Str.startswith (Str.replicate k Path.sep +:+ String x s) "///")
     then 2 else 1
   else 0) = k.
Proof.
  intros Hk Hx. assert (Hx' : "/"%char <> x) by congruence.
  unfold Str.startswith, Path.sep.
  destruct k as [|[|[|k]]]; [| | |lia]; cbn [Str.replicate];
    rewrite ?app_cons, ?app_nil_l.
  - now rewrite (prefix_other _ _ _ _ Hx').
  - rewrite !prefix_same, prefix_nil. now rewrite (prefix_other _ _ _ _ Hx').
  - rewrite !prefix_same, prefix_nil. now rewrite (prefix_other _ _ _ _ Hx').
Qed.

Lemma split_leading k s :
  Str.split (Str.replicate k Path.sep +:+ s) Path.sep
  = repeat "" k ++ Str.split s Path.sep.
Proof.
  induction k as [|k IH]; [reflexivity|].
  cbn [Str.replicate repeat]. rewrite app_cons, split_sep, IH. reflexivity.
Qed.

Lemma norm_loop_leading k n l acc :
  fold_left (Path.norm_step k) (repeat "" n ++ l) acc
  = fold_left (Path.norm_step k) l acc.
Proof. induction n as [|n IH]; [reflexivity|]. simpl. exact IH. Qed.

(** [normpath] on a path made of [k] separators and settled components. *)
Lemma normpath_built k comps :
  k <= 2 -> Forall Spec.component comps -> Spec.settled k comps ->
  Str.replicate k Path.sep +:+ Str.join Path.sep comps <> "" ->
  Path.normpath (Str.replicate k Path.sep +:+ Str.join Path.sep comps)
  = Str.replicate k Path.sep +:+ Str.join Path.sep comps.
Proof.
  intros Hk Hcomps Hsettled Hne.
  assert (Hloop : fold_left (Path.norm_step k) comps [] = comps)
    by now apply (norm_loop_fixed k comps []).
  destruct comps as [|c comps].
  { destruct k as [|[|[|k]]]; [now destruct Hne|reflexivity|reflexivity|lia]. }
  assert (Hsplit : Str.split (Str.join Path.sep (c :: comps)) Path.sep = c :: comps)
    by now apply split_join.
  destruct (join_components (c :: comps) Hcomps) as [Hj _]; [discriminate|].
  inversion Hcomps as [|? ? Hc _]; subst.
  assert (Hrel : Str.startswith (Str.join Path.sep (c :: comps)) "/" = false).
  { destruct comps as [|d comps].
    - now apply component_relative.
    - change (Str.join Path.sep (c :: d :: comps))
        with (c +:+ String Path.sep (Str.join Path.sep (d :: comps))).
      rewrite startswith_app by apply Hc. now apply component_relative. }
  remember (Str.join Path.sep (c :: comps)) as j eqn:Ej0.
  destruct j as [|x j']; [congruence|].
  assert (Hx : x <> "/"%char).
  { intros ->. unfold Str.startswith in Hrel. cbn [String.prefix] in Hrel.
    destruct (ascii_dec "/" "/"); [|congruence]. now rewrite prefix_nil in Hrel. }
  unfold Path.normpath.
  rewrite (proj2 (String.eqb_neq _ "") Hne). cbv zeta.
  rewrite (leading_slashes k x j' Hk Hx).
  rewrite split_leading, norm_loop_leading, Hsplit, Hloop, <- Ej0.
  destruct (Str.replicate k Path.sep +:+ String x j'); [congruence|reflexivity].
Qed.

Lemma normpath_form path :
  Path.normpath path = "."
  \/ exists k comps,
       k <= 2 /\ Forall Spec.component comps /\ Spec.settled k comps
       /\ Str.replicate k Path.sep +:+ Str.join Path.sep comps <> ""
       /\ Path.normpath path
          = Str.replicate k Path.sep +:+ Str.join Path.sep comps.
Proof.
  unfold Path.normpath.
  destruct (String.eqb path ""); [now left|].
  set (k := if Str.startswith path "/" then
              if Str.startswith path "//" && negb (Str.startswith path "///")
              then 2 else 1
            else 0).
  set (comps := fold_left (Path.norm_step k) (Str.split path Path.sep) []).
  destruct (Str.truthy _) eqn:E; [|now left].
  right. exists k, comps. repeat split.
  - unfold k. destruct (Str.startswith path "/"); [|lia].
    destruct (Str.startswith path "//" && negb (Str.startswith path "///")); lia.
  - apply norm_loop_components; [constructor|apply split_clean].
  - apply norm_loop_settled, settled_nil.
  - intros H. rewrite H in E. discriminate.
Qed.

(** [os.path.normpath] is idempotent. *)
Lemma normpath_idempotent path :
  Path.normpath (Path.normpath path) = Path.normpath path.
Proof.
  destruct (normpath_form path) as [-> | (k & comps & Hk & Hc & Hs & Hne & ->)];
    [reflexivity|].
  now apply normpath_built.
Qed.

End NormFacts.

(** X16: [get_output_filename] gives the same answer for a template path and
    for its normal form; redundant separators and dots in the path do not
    matter. *)
Theorem get_output_filename_normpath
    (template_filepath output_dir : string) (force_unexpanded expand : bool) :
  get_output_filename (Path.normpath template_filepath) output_dir
    force_unexpanded expand
  = get_output_filename template_filepath output_dir force_unexpanded expand.
Proof.
  rewrite !get_output_filename_unfold.
  now rewrite NormFacts.normpath_idempotent.
Qed.

(** * Flat placement and dot files *)

Module EdgeFacts.
Import StrFacts PathFacts.

Lemma app_cancel a b c : a +:+ b = a +:+ c -> b = c.
Proof.
  induction a as [|x a IH]; [now rewrite !app_nil_l|].
  rewrite !app_cons. intros H. inversion H. now apply IH.
Qed.

Lemma join2_cancel a b c :
  Str.startswith b "/" = false -> Str.startswith c "/" = false ->
  Path.join2 a b = Path.join2 a c -> b = c.
Proof.
  intros Hb Hc. rewrite !join2_relative by assumption.
  intros H. now apply app_cancel, app_cancel in H.
Qed.

Lemma length_snoc s c : String.length (s +:+ String c "") = S (String.length s).
Proof. induction s as [|x s IH]; [reflexivity|]. rewrite app_cons. simpl. now rewrite IH. Qed.

(** A name that is a dot followed by text without dots has no extension for
    [os.path.splitext], whatever directory it is in. *)
Lemma splitext_dotfile dir rest :
  dir = "" \/ Str.endswith dir Path.sep = true ->
  Spec.occurs Path.sep rest = false ->
  Spec.occurs Path.extsep rest = false ->
  Path.splitext (dir +:+ String "." rest) = (dir +:+ String "." rest, "").
Proof.
  intros Hdir Hsep Hdot. unfold Path.splitext.
  assert (Hs : Str.rfind (dir +:+ String "." rest) Path.sep = Str.rfind dir Path.sep).
  { apply rfind_app. simpl. now rewrite Hsep. }
  assert (Hd : Str.rfind (dir +:+ String "." rest) Path.extsep
               = Z.of_nat (String.length dir)).
  { change (String "." rest) with (String "." "" +:+ rest).
    rewrite <- app_assoc, rfind_app by assumption.
    rewrite rfind_endswith by now rewrite endswith_app.
    rewrite length_snoc. lia. }
  rewrite Hs, Hd.
  assert (Hzero : Z.to_nat (Z.of_nat (String.length dir)
                            - (Str.rfind dir Path.sep + 1)) = 0).
  { destruct Hdir as [-> | Hdir]; [reflexivity|].
    rewrite (rfind_endswith _ _ Hdir). lia. }
  rewrite Hzero. cbn [Str.take Path.has_non_dot]. now rewrite andb_false_r.
Qed.

End EdgeFacts.

(** X17: with [expand] off, two template paths that are relative once
    normalized and get the same output path have the same normal form: flat
    placement does not merge two templates. *)
Theorem get_output_filename_flat_injective
    (tp1 tp2 output_dir : string) (fu1 fu2 : bool) (o : string) :
  Path.isabs (Path.normpath tp1) = false ->
  Path.isabs (Path.normpath tp2) = false ->
  get_output_filename tp1 output_dir fu1 false = Some o ->
  get_output_filename tp2 output_dir fu2 false = Some o ->
  Path.normpath tp1 = Path.normpath tp2.
Proof.
  intros H1 H2. rewrite !get_output_filename_unfold.
  destruct (Str.startswith (Path.basename (Path.normpath tp1)) "base");
    [discriminate|].
  destruct (Str.startswith (Path.basename (Path.normpath tp2)) "base");
    [discriminate|].
  cbn [negb]. rewrite !orb_true_r.
  intros E1 E2. rewrite <- E2 in E1. inversion E1 as [E].
  now apply EdgeFacts.join2_cancel in E.
Qed.

Lemma get_output_filename_flat_injective_witness :
  get_output_filename "art/./page.html" "www" false false = Some "www/art/page.html"
  /\ get_output_filename "art//page.html" "www" true false = Some "www/art/page.html"
  /\ Path.normpath "art/./page.html" = Path.normpath "art//page.html".
Proof.
  split; [reflexivity|]. split; [reflexivity|].
  exact (get_output_filename_flat_injective "art/./page.html" "art//page.html"
           "www" false true "www/art/page.html" eq_refl eq_refl eq_refl eq_refl).
Defined.

(** X18: a regular file whose name is a dot followed by text without dots,
    such as ".yml", ".j2" or ".htaccess", has no extension for
    [os.path.splitext]; [_ignore] answers for it what the binary test says,
    and nothing else. *)
Theorem ignore_dotfile
    (w : world) (dir rest : string) (st : state) (data : string) :
  let path := dir +:+ String "." rest in
  dir = "" \/ Str.endswith dir Path.sep = true ->
  Spec.occurs Path.sep rest = false ->
  Spec.occurs Path.extsep rest = false ->
  OS.read st path = Some data ->
  _ignore w path st = (Return (is_binary_string w (Str.take 1024 data)), st).
Proof.
  intros path Hdir Hsep Hdot Hread. subst path.
  unfold _ignore, OS.is_binary, OS.read_text, bind, ret. rewrite Hread.
  destruct (is_binary_string w (Str.take 1024 data)); [reflexivity|].
  rewrite EdgeFacts.splitext_dotfile by assumption.
  assert (Hcut : Path.cut (dir +:+ String "." rest) = (dir, String "." rest)).
  { apply PathFacts.cut_app; [assumption|]. simpl. now rewrite Hsep. }
  rewrite (PathFacts.basename_cut _ _ _ Hcut). reflexivity.
Qed.

Lemma ignore_dotfile_witness :
  let st := {| root := Dir [("site", Dir [(".yml", File "title: x")])];
               cwd := "/"; trace := [] |} in
  OS.read st "site/.yml" = Some "title: x"
  /\ _ignore Sample.plain "site/.yml" st = (Return false, st).
Proof.
  intros st. split; [reflexivity|].
  exact (ignore_dotfile Sample.plain "site/" "yml" st "title: x"
           (or_intror eq_refl) eq_refl eq_refl eq_refl).
Defined.

(** * What a whole run of [generate_html] writes *)

Module RunWrites.
Local Open Scope list_scope.









End RunWrites.

